(** * Browser glue of the anomaly-detection front end (static/script.js)

    The script registers two listeners: a click listener on [generateBtn]
    that asks the server for sample data, and a submit listener on
    [uploadForm] that uploads a file for analysis and renders the answer.
    Both are embedded here as state-passing programs over a document (a
    finite map from element ids to elements), a log of the effects the
    page observes (alerts, requests, [preventDefault]) and the answer the
    server gives to the one request a listener can make. *)

From Stdlib Require Import ZArith.
From stdpp Require Import gmap strings list fin_maps pretty.

#[local] Set Warnings "-register-all".
Local Open Scope Z_scope.
Local Open Scope string_scope.

(** ** Text helpers

    The template literals of the script contain double quotes and line
    breaks; both are spelled through their character codes. *)

Definition dq : string := String (Ascii.ascii_of_nat 34) EmptyString.
Definition nl : string := String (Ascii.ascii_of_nat 10) EmptyString.

Fixpoint spaces (n : nat) : string :=
  match n with
  | O => ""
  | S n' => " " +:+ spaces n'
  end.

(** A line break followed by [n] blanks and the text [s]: one physical
    line inside a template literal. *)
Definition row (n : nat) (s : string) : string := nl +:+ spaces n +:+ s.

(** [name="v"], an attribute as it is written in the markup. *)
Definition attr (name v : string) : string := name +:+ "=" +:+ dq +:+ v +:+ dq.

Fixpoint concat_strings (l : list string) : string :=
  match l with
  | [] => ""
  | s :: l' => s +:+ concat_strings l'
  end.

(** ** JavaScript values

    What [response.json()] can deliver, together with [undefined], which a
    read of a missing property yields.  Numbers are the integers; their
    text is the decimal numeral, as [Number::toString] gives for the safe
    integers (below 2^53 in absolute value).  The conversions below are
    the engine's on the plain values, see [plain]; the theorems about
    what is rendered are stated for those. *)

Inductive jsval : Type :=
| VUndefined
| VNull
| VBool (b : bool)
| VNum (n : Z)
| VStr (s : string)
| VArr (items : list jsval)
| VObj (fields : list (string * jsval)).

(** ToString.  An array is joined with commas, [null] and [undefined]
    elements giving the empty text; an object without an own [toString]
    is [[object Object]]. *)
Fixpoint to_string (v : jsval) : string :=
  match v with
  | VUndefined => "undefined"
  | VNull => "null"
  | VBool true => "true"
  | VBool false => "false"
  | VNum n => pretty n
  | VStr s => s
  | VArr items =>
      (fix join (l : list jsval) : string :=
         match l with
         | [] => ""
         | x :: l' =>
             let sx := match x with
                       | VUndefined | VNull => ""
                       | _ => to_string x
                       end in
             match l' with
             | [] => sx
             | _ :: _ => sx +:+ "," +:+ join l'
             end
         end) items
  | VObj _ => "[object Object]"
  end.

(** ToBoolean: the test of [if (data.error)], [!startDate], [a && b]. *)
Definition to_boolean (v : jsval) : bool :=
  match v with
  | VUndefined | VNull => false
  | VBool b => b
  | VNum n => negb (n =? 0)%Z
  | VStr s => negb (String.eqb s "")
  | VArr _ | VObj _ => true
  end.

(** [v === 'HIGH'] and the like: strict equality with a string literal. *)
Definition strict_eq_string (v : jsval) (s : string) : bool :=
  match v with
  | VStr s' => String.eqb s' s
  | _ => false
  end.

(** The own property [k] of a parsed object: its first binding in the
    list, [undefined] when there is none. *)
Fixpoint assoc (k : string) (fields : list (string * jsval)) : jsval :=
  match fields with
  | [] => VUndefined
  | (k', v) :: rest => if String.eqb k k' then v else assoc k rest
  end.

(** ** Exceptions and what the engine decides

    Every value the script can throw or catch is an error object; only its
    [name] and [message] are observed. *)

Record exn : Type := Exn { exn_name : string; message : string }.

Definition Error (m : string) : exn := Exn "Error" m.
Definition TypeError (m : string) : exn := Exn "TypeError" m.

(** The script leaves three things to the JavaScript engine: the wording of
    the [TypeError] raised by a property access (a read, or a store) on
    [null] or [undefined], the wording of the one raised by calling
    something that is no function, and the outcome of [s > 0] for a string
    [s] (StringToNumber, a floating point conversion).  They are the
    fields of an interface. *)
Class Engine : Type := {
  cannot_read : jsval -> string -> string;
  not_a_function : string -> string;
  string_positive : string -> bool
}.

(** The outcome of evaluating an expression: a value or a thrown
    exception. *)
Inductive completion (A : Type) : Type :=
| Normal (a : A)
| Throw (e : exn).
Arguments Normal {A} a.
Arguments Throw {A} e.

#[export] Instance completion_ret : MRet completion := @Normal.
#[export] Instance completion_bind : MBind completion := λ A B k c,
  match c with
  | Normal a => k a
  | Throw e => Throw e
  end.

Section Expressions.
Context `{E : Engine}.

(** [v.k] on a value, for the property names the script reads ([error],
    [filename], [statistics], [timestamp], [recommendations], [length],
    [type], [severity], [description], ...): own properties of an object,
    [length] of an array or a string, [undefined] otherwise; a read on
    [null] or [undefined] throws. *)
Definition get (v : jsval) (k : string) : completion jsval :=
  match v with
  | VUndefined | VNull => Throw (TypeError (cannot_read v k))
  | VObj fields => Normal (assoc k fields)
  | VArr items =>
      Normal (if String.eqb k "length" then VNum (Z.of_nat (length items)) else VUndefined)
  | VStr s =>
      Normal (if String.eqb k "length" then VNum (Z.of_nat (String.length s)) else VUndefined)
  | VBool _ | VNum _ => Normal VUndefined
  end.

(** [v > 0]: ToNumber of [v] compared with zero.  [undefined] and a
    plain object convert to NaN, [null] to 0, [true] to 1; a string, and
    an array through its ToString, are converted by the engine. *)
Definition gt_zero (v : jsval) : bool :=
  match v with
  | VUndefined | VNull | VObj _ => false
  | VBool b => b
  | VNum n => (0 <? n)%Z
  | VStr s => string_positive s
  | VArr _ => string_positive (to_string v)
  end.

(** [v.map(f)], [expr] being the source text of the callee: only an array
    has a [map] that can be called. *)
Definition array_map (v : jsval) (expr : string) (f : jsval -> completion string)
  : completion (list string) :=
  match v with
  | VArr items => mapM f items
  | VUndefined | VNull => Throw (TypeError (cannot_read v "map"))
  | _ => Throw (TypeError (not_a_function expr))
  end.

Definition nullish (v : jsval) : bool :=
  match v with
  | VUndefined | VNull => true
  | _ => false
  end.

(** The value the [textContent] setter stores: [null] and [undefined]
    clear the text, anything else is converted with ToString. *)
Definition text_of (v : jsval) : string :=
  match v with
  | VUndefined | VNull => ""
  | _ => to_string v
  end.

End Expressions.

(** ** The page *)

Record file : Type := File { file_name : string; file_text : string }.

(** What an element shows: the text last assigned to [textContent] or the
    markup last assigned to [innerHTML]. *)
Inductive inner : Type :=
| TextContent (s : string)
| InnerHTML (s : string).

(** The one function the script stores in the page: the arrow function of
    lines 88-90, closed over [data]. *)
Inductive listener : Type :=
| DownloadListener (data : jsval).

Record element : Type := Element {
  classList : list string;
  value : string;
  files : list file;
  inner_content : inner;
  src : string;
  onclick : option listener
}.

Definition set_classList (f : list string -> list string) (e : element) : element :=
  Element (f (classList e)) (value e) (files e) (inner_content e) (src e) (onclick e).
Definition set_inner (c : inner) (e : element) : element :=
  Element (classList e) (value e) (files e) c (src e) (onclick e).
Definition set_src (s : string) (e : element) : element :=
  Element (classList e) (value e) (files e) (inner_content e) s (onclick e).
Definition set_onclick (l : listener) (e : element) : element :=
  Element (classList e) (value e) (files e) (inner_content e) (src e) (Some l).

(** [DOMTokenList.add] and [DOMTokenList.remove] on an ordered set of
    class names. *)
Definition token_add (t : string) (l : list string) : list string :=
  if bool_decide (t ∈ l) then l else l ++ [t].
Definition token_remove (t : string) (l : list string) : list string :=
  filter (λ x, x ≠ t) l.

Inductive payload : Type :=
| JsonBody (v : jsval)
| FormBody (parts : list (string * file)).

Record request : Type := Request {
  url : string;
  method : string;
  headers : list (string * string);
  body : payload
}.

Inductive effect : Type :=
| PreventDefault
| Alert (msg : string)
| Fetch (req : request).

(** The server's side of one exchange: [fetch] rejects, or
    [response.json()] rejects, or it yields the parsed body. *)
Inductive reply : Type :=
| Rejected (e : exn)
| NotJson (e : exn)
| Json (data : jsval).

Record world : Type := World {
  document : gmap string element;
  location_href : string;
  effects : list effect
}.

(** An element is hidden when its class list holds [d-none]. *)
Definition hidden (id : string) (w : world) : Prop :=
  ∃ e, document w !! id = Some e ∧ "d-none" ∈ classList e.
Definition visible (id : string) (w : world) : Prop :=
  ∃ e, document w !! id = Some e ∧ "d-none" ∉ classList e.
Definition shows (id : string) (c : inner) (w : world) : Prop :=
  ∃ e, document w !! id = Some e ∧ inner_content e = c.

(** The effects a run adds to the log. *)
Definition emitted (w w' : world) : list effect :=
  drop (length (effects w)) (effects w').

(** ** The monad of listeners: state, effects log and exceptions *)

Definition js (A : Type) : Type := world -> completion A * world.

#[export] Instance js_ret : MRet js := λ A a w, (Normal a, w).
#[export] Instance js_bind : MBind js := λ A B k c w,
  match c w with
  | (Normal a, w') => k a w'
  | (Throw e, w') => (Throw e, w')
  end.

(** An expression evaluated inside a listener. *)
Definition eval {A} (c : completion A) : js A := λ w, (c, w).
Definition throw {A} (e : exn) : js A := eval (Throw e).

Definition try_catch {A} (c : js A) (h : exn -> js A) : js A := λ w,
  match c w with
  | (Normal a, w') => (Normal a, w')
  | (Throw e, w') => h e w'
  end.

Definition log (e : effect) : js unit := λ w,
  (Normal tt, World (document w) (location_href w) (effects w ++ [e])).

Definition alert (msg : string) : js unit := log (Alert msg).
Definition preventDefault : js unit := log PreventDefault.

Definition navigate (u : string) : js unit := λ w,
  (Normal tt, World (document w) u (effects w)).

(** A node is [null] or a reference to the element with that id. *)
Definition node : Type := option string.

Definition getElementById (id : string) : js node := λ w,
  (Normal (match document w !! id with Some _ => Some id | None => None end), w).

Section Engine.
Context `{E : Engine}.

(** [n.prop] as a read, [f] projecting the property out of the element. *)
Definition read_prop {A} (n : node) (prop : string) (f : element -> A) : js A := λ w,
  match n ≫= (λ id, document w !! id) with
  | Some e => (Normal (f e), w)
  | None => (Throw (TypeError (cannot_read VNull prop)), w)
  end.

(** A write through [n.prop]: [n.prop = v], [n.prop.add(t)]. *)
Definition write_prop (n : node) (prop : string) (f : element -> element) : js unit := λ w,
  match n ≫= (λ id, (document w !! id) ≫= (λ _, Some id)) with
  | Some id => (Normal tt, World (alter f id (document w)) (location_href w) (effects w))
  | None => (Throw (TypeError (cannot_read VNull prop)), w)
  end.

(** [fetch(url, init)]: the request goes out, and the promise rejects or
    resolves to a response. *)
Definition fetch (req : request) (r : reply) : js reply :=
  log (Fetch req) ;;
  match r with
  | Rejected e => throw e
  | _ => mret r
  end.

(** [response.json()]. *)
Definition response_json (r : reply) : js jsval :=
  match r with
  | Json data => mret data
  | NotJson e | Rejected e => throw e
  end.

(** *** The listeners *)

(** The arrow function stored in [downloadBtn.onclick] (lines 88-90). *)
Definition run_listener (l : listener) : js unit :=
  match l with
  | DownloadListener data =>
      timestamp ← eval (get data "timestamp");
      navigate ("/download/" +:+ to_string timestamp)
  end.

(** A click on the element [id] runs a listener that sets
    [window.location.href] to [u]. *)
Definition click_navigates (id u : string) (w : world) : Prop :=
  ∃ e l, document w !! id = Some e ∧ onclick e = Some l
         ∧ ∀ w', run_listener l w' = (Normal tt, World (document w') u (effects w')).

(** The template literal of lines 31-36. *)
Definition success_banner (filename : jsval) : string :=
  row 12 ("<div " +:+ attr "class" "alert alert-success" +:+ ">") +:+
  row 16 "Sample data generated successfully!" +:+
  row 16 ("<a " +:+ attr "href" ("/download_sample/" +:+ to_string filename) +:+ " " +:+
          attr "class" "btn btn-sm btn-primary ms-2" +:+ ">Download</a>") +:+
  row 12 "</div>" +:+
  row 8 "".

(** The template literal of lines 39-43. *)
Definition danger_banner (msg : string) : string :=
  row 12 ("<div " +:+ attr "class" "alert alert-danger" +:+ ">") +:+
  row 16 ("Error generating sample data: " +:+ msg) +:+
  row 12 "</div>" +:+
  row 8 "".

(** The request of lines 14-23; the body is the JSON text of the object. *)
Definition generate_request (startDate duration : string) : request :=
  Request "/generate_data" "POST"
    [("Content-Type", "application/json")]
    (JsonBody (VObj [("start_date", VStr startDate); ("duration", VStr duration)])).

(** The request of lines 62-69: a form with the one part [file]. *)
Definition analyze_request (file : file) : request :=
  Request "/analyze" "POST" [] (FormBody [("file", file)]).

(** Lines 1-45: the click listener of [generateBtn]; [r] is what the
    server answers if the request is made. *)
Definition generate_click (r : reply) : js unit :=
  startDate_node ← getElementById "startDate";
  startDate ← read_prop startDate_node "value" value;
  duration_node ← getElementById "duration";
  duration ← read_prop duration_node "value" value;
  if negb (to_boolean (VStr startDate)) then
    alert "Please select a start date"
  else
    generationStatus ← getElementById "generationStatus";
    write_prop generationStatus "classList" (set_classList (token_remove "d-none")) ;;
    try_catch
      (response ← fetch (generate_request startDate duration) r;
       data ← response_json response;
       error ← eval (get data "error");
       if to_boolean error then throw (Error (to_string error))
       else
         filename ← eval (get data "filename");
         write_prop generationStatus "innerHTML"
           (set_inner (InnerHTML (success_banner filename))))
      (λ error,
         write_prop generationStatus "innerHTML"
           (set_inner (InnerHTML (danger_banner (message error))))).

(** The inner template literal of lines 105-107. *)
Definition render_item (r : jsval) : completion string :=
  Normal (row 28 ("<li " +:+ attr "class" "list-group-item" +:+ ">" +:+
                  to_string r +:+ "</li>") +:+
          row 24 "").

(** The outer template literal of lines 98-110, its substitutions
    evaluated from left to right. *)
Definition render_recommendation (rec : jsval) : completion string :=
  severity ← get rec "severity";
  type ← get rec "type";
  severity' ← get rec "severity";
  description ← get rec "description";
  subs ← get rec "recommendations";
  items ← array_map subs "rec.recommendations.map" render_item;
  Normal (row 16 ("<div " +:+ attr "class" "recommendation-item mb-3" +:+ ">") +:+
          row 20 ("<h6 " +:+
                  attr "class"
                    ("text-" +:+
                     (if strict_eq_string severity "HIGH" then "danger" else "warning")) +:+
                  ">") +:+
          row 24 (to_string type +:+ " (" +:+ to_string severity' +:+ " Severity)") +:+
          row 20 "</h6>" +:+
          row 20 ("<p " +:+ attr "class" "mb-2" +:+ ">" +:+ to_string description +:+ "</p>") +:+
          row 20 ("<ul " +:+ attr "class" "list-group" +:+ ">") +:+
          row 24 (concat_strings items) +:+
          row 20 "</ul>" +:+
          row 16 "</div>" +:+
          row 12 "").

(** The test of line 96:
    [data.recommendations && data.recommendations.length > 0]. *)
Definition has_recommendations (recommendations : jsval) : completion bool :=
  if to_boolean recommendations then
    len ← get recommendations "length"; Normal (gt_zero len)
  else Normal false.

(** Lines 96-114: the recommendations card. *)
Definition render_recommendations (data : jsval) : js unit :=
  recommendations ← eval (get data "recommendations");
  nonempty ← eval (has_recommendations recommendations);
  if nonempty : bool then
    recommendationsList ← getElementById "recommendationsList";
    cards ← eval (array_map recommendations "data.recommendations.map"
                    render_recommendation);
    write_prop recommendationsList "innerHTML"
      (set_inner (InnerHTML (concat_strings cards))) ;;
    card ← getElementById "recommendationsCard";
    write_prop card "classList" (set_classList (token_remove "d-none"))
  else
    card ← getElementById "recommendationsCard";
    write_prop card "classList" (set_classList (token_add "d-none")).

(** Lines 77-114: what the submit listener does with a body that carries
    no truthy [error]. *)
Definition render_analysis (data : jsval) : js unit :=
  totalRecords ← getElementById "totalRecords";
  statistics ← eval (get data "statistics");
  total_records ← eval (get statistics "total_records");
  write_prop totalRecords "textContent"
    (set_inner (TextContent (text_of total_records))) ;;
  anomalyCount ← getElementById "anomalyCount";
  statistics ← eval (get data "statistics");
  anomaly_count ← eval (get statistics "anomaly_count");
  write_prop anomalyCount "textContent"
    (set_inner (TextContent (text_of anomaly_count))) ;;
  anomalyPercentage ← getElementById "anomalyPercentage";
  statistics ← eval (get data "statistics");
  anomaly_percentage ← eval (get statistics "anomaly_percentage");
  write_prop anomalyPercentage "textContent"
    (set_inner (TextContent (to_string anomaly_percentage +:+ "%"))) ;;
  scatterPlot ← getElementById "scatterPlot";
  timestamp ← eval (get data "timestamp");
  write_prop scatterPlot "src"
    (set_src ("/visualization/" +:+ to_string timestamp +:+ "/scatter")) ;;
  distributionPlot ← getElementById "distributionPlot";
  timestamp ← eval (get data "timestamp");
  write_prop distributionPlot "src"
    (set_src ("/visualization/" +:+ to_string timestamp +:+ "/distribution")) ;;
  downloadBtn ← getElementById "downloadBtn";
  write_prop downloadBtn "onclick" (set_onclick (DownloadListener data)) ;;
  loading ← getElementById "loading";
  write_prop loading "classList" (set_classList (token_add "d-none")) ;;
  results ← getElementById "results";
  write_prop results "classList" (set_classList (token_remove "d-none")) ;;
  render_recommendations data.

(** Lines 65-75: the exchange with [/analyze] and the test of the
    [error] field. *)
Definition analyze (file : file) (r : reply) : js unit :=
  response ← fetch (analyze_request file) r;
  data ← response_json response;
  error ← eval (get data "error");
  if to_boolean error then throw (Error (to_string error))
  else render_analysis data.

(** Lines 116-119: the catch block of the submit listener. *)
Definition report_failure (error : exn) : js unit :=
  alert ("Error: " +:+ message error) ;;
  loading ← getElementById "loading";
  write_prop loading "classList" (set_classList (token_add "d-none")).

(** Lines 47-120: the submit listener of [uploadForm]. *)
Definition upload_submit (r : reply) : js unit :=
  preventDefault ;;
  fileInput ← getElementById "fileInput";
  selected ← read_prop fileInput "files" files;
  match selected with
  | [] => alert "Please select a file"
  | file :: _ =>
      loading ← getElementById "loading";
      write_prop loading "classList" (set_classList (token_remove "d-none")) ;;
      results ← getElementById "results";
      write_prop results "classList" (set_classList (token_add "d-none")) ;;
      try_catch (analyze file r) report_failure
  end.

End Engine.

(** The ids the script looks up, and a document that holds them all. *)
Definition element_ids : list string :=
  ["generateBtn"; "startDate"; "duration"; "generationStatus"; "uploadForm";
   "fileInput"; "loading"; "results"; "totalRecords"; "anomalyCount";
   "anomalyPercentage"; "scatterPlot"; "distributionPlot"; "downloadBtn";
   "recommendationsList"; "recommendationsCard"].

Definition ui_contract (d : gmap string element) : Prop :=
  Forall (λ id, is_Some (d !! id)) element_ids.

(** The file the submit listener uploads: [fileInput.files[0]]. *)
Definition selected_file (d : gmap string element) : option file :=
  e ← d !! "fileInput"; files e !! 0%nat.

(** The world in which the [try] block of the submit listener starts
    (after lines 48-63), when a file is selected. *)
Definition try_entry (w : world) : world :=
  World (alter (set_classList (token_add "d-none")) "results"
           (alter (set_classList (token_remove "d-none")) "loading" (document w)))
        (location_href w)
        (effects w ++ [PreventDefault]).

(** The document after lines 78-94 have run on a body [data] whose
    statistics can be read: the three texts, the two image sources, the
    download listener, the loading indicator hidden and the results panel
    revealed. *)
Definition unpacked `{E : Engine} (data : jsval) (d : gmap string element)
  : gmap string element :=
  let field v k := match get v k with Normal x => x | Throw _ => VUndefined end in
  let statistics := field data "statistics" in
  let timestamp := to_string (field data "timestamp") in
  alter (set_classList (token_remove "d-none")) "results"
    (alter (set_classList (token_add "d-none")) "loading"
       (alter (set_onclick (DownloadListener data)) "downloadBtn"
          (alter (set_src ("/visualization/" +:+ timestamp +:+ "/distribution"))
             "distributionPlot"
             (alter (set_src ("/visualization/" +:+ timestamp +:+ "/scatter"))
                "scatterPlot"
                (alter (set_inner
                          (TextContent
                             (to_string (field statistics "anomaly_percentage") +:+ "%")))
                   "anomalyPercentage"
                   (alter (set_inner
                             (TextContent (text_of (field statistics "anomaly_count"))))
                      "anomalyCount"
                      (alter (set_inner
                                (TextContent (text_of (field statistics "total_records"))))
                         "totalRecords" d))))))).

(** What lines 96-114 do to the document, by the outcome of the test of
    line 96 and of the [map] of lines 98-110. *)
Definition recommendations_outcome `{E : Engine} (recommendations : jsval)
    (d : gmap string element)
  : completion unit * gmap string element :=
  match has_recommendations recommendations with
  | Normal true =>
      match array_map recommendations "data.recommendations.map"
              render_recommendation with
      | Normal cards =>
          (Normal tt,
           alter (set_classList (token_remove "d-none")) "recommendationsCard"
             (alter (set_inner (InnerHTML (concat_strings cards)))
                "recommendationsList" d))
      | Throw e => (Throw e, d)
      end
  | Normal false =>
      (Normal tt, alter (set_classList (token_add "d-none")) "recommendationsCard" d)
  | Throw e => (Throw e, d)
  end.

Definition has_src (id s : string) (w : world) : Prop :=
  ∃ e, document w !! id = Some e ∧ src e = s.

(** The card of one recommendation as the specification describes it: a
    title of class [title_class], the description paragraph and one list
    item per sub-recommendation. *)
Definition list_item (text : string) : string :=
  row 28 ("<li " +:+ attr "class" "list-group-item" +:+ ">" +:+ text +:+ "</li>") +:+
  row 24 "".

Definition recommendation_card (title_class title description : string)
    (items : list string) : string :=
  row 16 ("<div " +:+ attr "class" "recommendation-item mb-3" +:+ ">") +:+
  row 20 ("<h6 " +:+ attr "class" title_class +:+ ">") +:+
  row 24 title +:+
  row 20 "</h6>" +:+
  row 20 ("<p " +:+ attr "class" "mb-2" +:+ ">" +:+ description +:+ "</p>") +:+
  row 20 ("<ul " +:+ attr "class" "list-group" +:+ ">") +:+
  row 24 (concat_strings (map list_item items)) +:+
  row 20 "</ul>" +:+
  row 16 "</div>" +:+
  row 12 "".

(** [card] is the card of the recommendation [rec]: titled
    "<type> (<severity> Severity)", the title styled [text-danger] when
    the severity is "HIGH" and [text-warning] otherwise. *)
Definition card_for (rec : jsval) (card : string) : Prop :=
  ∃ fields subs,
    rec = VObj fields ∧ assoc "recommendations" fields = VArr subs ∧
    card = recommendation_card
             (if strict_eq_string (assoc "severity" fields) "HIGH"
              then "text-danger" else "text-warning")
             (to_string (assoc "type" fields) +:+ " (" +:+
              to_string (assoc "severity" fields) +:+ " Severity)")
             (to_string (assoc "description" fields))
             (map to_string subs).

(** A recommendation of the shape the data model gives: an object whose
    [recommendations] field is a list. *)
Definition recommendation_shape (rec : jsval) : Prop :=
  ∃ fields subs, rec = VObj fields ∧ assoc "recommendations" fields = VArr subs.

(** The body passes lines 73-94: it is an object with no truthy [error]
    whose [statistics] can be read. *)
Definition unpacks (r : reply) : Prop :=
  ∃ fields, r = Json (VObj fields)
            ∧ to_boolean (assoc "error" fields) = false
            ∧ nullish (assoc "statistics" fields) = false.

(** The values on which [to_string], [text_of] and [gt_zero] are what the
    engine computes.  ToString of a parsed object that has an own property
    named [toString] throws a [TypeError], since the property is no
    function, and Number::toString prints an integer beyond 2^53 in a
    rounded or an exponent form.  A plain value holds neither, at any
    depth: its numbers are safe integers and none of its objects has an
    own [toString]. *)
Fixpoint plain (v : jsval) : bool :=
  match v with
  | VUndefined | VNull | VBool _ | VStr _ => true
  | VNum n => (Z.abs n <? 2 ^ 53)%Z
  | VArr items =>
      (fix all (l : list jsval) : bool :=
         match l with
         | [] => true
         | x :: l' => plain x && all l'
         end) items
  | VObj fields =>
      (fix all (l : list (string * jsval)) : bool :=
         match l with
         | [] => true
         | (k, x) :: l' => negb (String.eqb k "toString") && plain x && all l'
         end) fields
  end.


(** [s] occurs in [t]. *)
Definition contains (s t : string) : Prop :=
  ∃ before after, t = before +:+ s +:+ after.

(** The markup the click listener of [generateBtn] leaves in the status
    region, by the reply. *)
Definition generation_markup `{E : Engine} (r : reply) : string :=
  match r with
  | Rejected e | NotJson e => danger_banner (message e)
  | Json data =>
      match get data "error" with
      | Throw e => danger_banner (message e)
      | Normal error =>
          if to_boolean error then danger_banner (to_string error)
          else match get data "filename" with
               | Normal filename => success_banner filename
               | Throw e => danger_banner (message e)
               end
      end
  end.

(** A generation failure with message [m] is shown inline: a danger
    banner with the text, and no alert. *)
Definition inline_error (m : string) (w w' : world) : Prop :=
  ∃ html, shows "generationStatus" (InnerHTML html) w'
          ∧ contains (attr "class" "alert alert-danger") html
          ∧ contains ("Error generating sample data: " +:+ m) html
          ∧ ∀ a, Alert a ∉ emitted w w'.


(** ** What a run may change

    The elements the two listeners write to. *)
Definition generate_targets : list string := ["generationStatus"].

Definition submit_targets : list string :=
  ["loading"; "results"; "totalRecords"; "anomalyCount"; "anomalyPercentage";
   "scatterPlot"; "distributionPlot"; "downloadBtn"; "recommendationsList";
   "recommendationsCard"].

(** [e'] holds what the user entered in [e]: the same value and the same
    selected files. *)
Definition same_input (e e' : element) : Prop :=
  value e' = value e ∧ files e' = files e.

(** [w'] comes from [w] by writes to the elements [ids] only: the address
    is the same, the log is extended, the same ids exist with the same
    user input, and every element outside [ids] is untouched. *)
Definition within (ids : list string) (w w' : world) : Prop :=
  location_href w' = location_href w
  ∧ effects w `prefix_of` effects w'
  ∧ (∀ id, option_Forall2 same_input (document w !! id) (document w' !! id))
  ∧ (∀ id, id ∉ ids -> document w' !! id = document w !! id).

(** Every run of [c] stays within [ids]. *)
Definition keeps {A} (ids : list string) (c : js A) : Prop :=
  ∀ w, within ids w (c w).2.

(** The page [w] without the element [id]. *)
Definition without (id : string) (w : world) : world :=
  World (delete id (document w)) (location_href w) (effects w).

(** ** Running the model

    An engine with V8's wording of the two messages.  Its comparison is
    exact on texts made of decimal digits and on texts that are no numeric
    literal; the runs below compare array lengths, which never reach it. *)

Definition typeof_null_or_undefined (v : jsval) : string :=
  match v with VNull => "null" | _ => "undefined" end.

(** The properties the script stores into; every other access is a
    read. *)
Definition stored (k : string) : bool :=
  bool_decide (k ∈ ["textContent"; "innerHTML"; "src"; "onclick"]).

Definition digits_positive (s : string) : bool :=
  forallb (λ c, (48 <=? Ascii.nat_of_ascii c)%nat && (Ascii.nat_of_ascii c <=? 57)%nat)
          (String.list_ascii_of_string s)
  && existsb (λ c, (49 <=? Ascii.nat_of_ascii c)%nat) (String.list_ascii_of_string s).

#[local] Instance sample_engine : Engine := {|
  cannot_read v k :=
    if stored k then
      "Cannot set properties of " +:+ typeof_null_or_undefined v +:+
      " (setting '" +:+ k +:+ "')"
    else
      "Cannot read properties of " +:+ typeof_null_or_undefined v +:+
      " (reading '" +:+ k +:+ "')";
  not_a_function expr := expr +:+ " is not a function";
  string_positive := digits_positive
|}.

(** A page that holds the sixteen elements the script binds to. *)
Definition blank : element := Element [] "" [] (TextContent "") "" None.

Definition sample_page : gmap string element :=
  list_to_map
    [("generateBtn", blank); ("startDate", blank); ("duration", blank);
     ("generationStatus", set_classList (λ _, ["d-none"]) blank);
     ("uploadForm", blank); ("fileInput", blank);
     ("loading", set_classList (λ _, ["spinner"; "d-none"]) blank);
     ("results", set_classList (λ _, ["d-none"]) blank);
     ("totalRecords", blank); ("anomalyCount", blank);
     ("anomalyPercentage", blank); ("scatterPlot", blank);
     ("distributionPlot", blank); ("downloadBtn", blank);
     ("recommendationsList", blank);
     ("recommendationsCard", set_classList (λ _, ["card"; "d-none"]) blank)].

Definition with_value (id v : string) (d : gmap string element) : gmap string element :=
  alter (λ e, Element (classList e) v (files e) (inner_content e) (src e) (onclick e)) id d.
Definition with_file (id : string) (f : file) (d : gmap string element) : gmap string element :=
  alter (λ e, Element (classList e) (value e) [f] (inner_content e) (src e) (onclick e)) id d.

Definition sample_file : file := File "traffic.csv" "a,b".

(** The page before anything is entered or selected. *)
Definition idle_world : world := World sample_page "/" [].

Definition sample_world : world :=
  World (with_file "fileInput" sample_file
           (with_value "startDate" "2024-01-01" (with_value "duration" "7" sample_page)))
        "/" [].

(** Bodies the server can answer with. *)
Definition sample_statistics : jsval :=
  VObj [("total_records", VNum 100); ("anomaly_count", VNum 5);
        ("anomaly_percentage", VNum 5)].

Definition spike : jsval :=
  VObj [("type", VStr "Spike"); ("severity", VStr "HIGH"); ("description", VStr "d");
        ("recommendations", VArr [VStr "fix it"])].

Definition analysis_fields (recommendations : list jsval) : list (string * jsval) :=
  [("statistics", sample_statistics); ("timestamp", VStr "t1");
   ("recommendations", VArr recommendations)].

(** A recommendation without its list of sub-recommendations. *)
Definition truncated : jsval :=
  VObj [("type", VStr "Spike"); ("severity", VStr "HIGH"); ("description", VStr "d")].


Definition failed_to_fetch : exn := TypeError "Failed to fetch".

(** The three elements of the generation form as [sample_world] has
    them. *)
Definition entered_start : element := Element [] "2024-01-01" [] (TextContent "") "" None.
Definition entered_duration : element := Element [] "7" [] (TextContent "") "" None.
Definition status_region : element := set_classList (λ _, ["d-none"]) blank.

(** A body whose [recommendations] field is a number. *)
Definition counted_fields : list (string * jsval) :=
  [("statistics", sample_statistics); ("timestamp", VStr "t1");
   ("recommendations", VNum 3)].

Example to_string_num : to_string (VNum 100) = "100".
Proof. reflexivity. Qed.

Example to_string_arr :
  to_string (VArr [VNum 1; VNull; VStr "a"; VArr [VNum (-2)]]) = "1,,a,-2".
Proof. reflexivity. Qed.

Example render_spike :
  render_recommendation spike
  = Normal (recommendation_card "text-danger" "Spike (HIGH Severity)" "d" ["fix it"]).
Proof. reflexivity. Qed.

Example render_truncated :
  render_recommendation truncated
  = Throw (TypeError "Cannot read properties of undefined (reading 'map')").
Proof. reflexivity. Qed.

Example has_recommendations_examples :
  has_recommendations (VArr []) = Normal false
  ∧ has_recommendations VUndefined = Normal false
  ∧ has_recommendations (VArr [spike]) = Normal true
  ∧ has_recommendations (VStr "none") = Normal true
  ∧ has_recommendations (VObj [("length", VNum 2)]) = Normal true.
Proof. repeat split. Qed.

Example submit_spike_effects :
  (upload_submit (Json (VObj (analysis_fields [spike]))) sample_world).1 = Normal tt
  ∧ effects (upload_submit (Json (VObj (analysis_fields [spike]))) sample_world).2
    = [PreventDefault; Fetch (analyze_request sample_file)].
Proof. split; vm_compute; reflexivity. Qed.

Example submit_truncated_effects :
  effects (upload_submit (Json (VObj (analysis_fields [truncated]))) sample_world).2
  = [PreventDefault; Fetch (analyze_request sample_file);
     Alert "Error: Cannot read properties of undefined (reading 'map')"].
Proof. vm_compute. reflexivity. Qed.

Example submit_null_body_effects :
  effects (upload_submit (Json VNull) sample_world).2
  = [PreventDefault; Fetch (analyze_request sample_file);
     Alert "Error: Cannot read properties of null (reading 'error')"].
Proof. vm_compute. reflexivity. Qed.

Example generate_bad_range_effects :
  effects (generate_click (Json (VObj [("error", VStr "bad range")])) sample_world).2
  = [Fetch (generate_request "2024-01-01" "7")].
Proof. vm_compute. reflexivity. Qed.

Example submit_missing_field_effects :
  effects (upload_submit (Json (VObj (analysis_fields [])))
             (without "totalRecords" sample_world)).2
  = [PreventDefault; Fetch (analyze_request sample_file);
     Alert "Error: Cannot set properties of null (setting 'textContent')"].
Proof. vm_compute. reflexivity. Qed.

Example plain_examples :
  plain (VObj (analysis_fields [spike])) = true
  ∧ plain (VObj [("error", VObj [("toString", VNum 1)])]) = false
  ∧ plain (VArr [VNum (10 ^ 21)]) = false
  ∧ plain (VNum (2 ^ 53 - 1)) = true.
Proof. repeat split. Qed.

Example click_download :
  location_href (run_listener (DownloadListener (VObj (analysis_fields []))) sample_world).2
  = "/download/t1".
Proof. vm_compute. reflexivity. Qed.

(** ** Stepping lemmas for the monad *)

Section Steps.
Context `{E : Engine}.

Lemma step_assoc {A B C} (c : js A) (k1 : A -> js B) (k2 : B -> js C) w :
  ((c ≫= k1) ≫= k2) w = (c ≫= λ a, k1 a ≫= k2) w.
Proof. unfold mbind, js_bind. by destruct (c w) as [[a|e] w']. Qed.

Lemma step_getElementById {B} id (k : node -> js B) d h l e :
  d !! id = Some e ->
  (getElementById id ≫= k) (World d h l) = k (Some id) (World d h l).
Proof. intros H. unfold mbind, js_bind, getElementById. cbn. by rewrite H. Qed.

Lemma step_eval {A B} (c : completion A) (k : A -> js B) w :
  (eval c ≫= k) w = match c with Normal a => k a w | Throw e => (Throw e, w) end.
Proof. by destruct c. Qed.

Lemma step_read_prop {A B} id prop (f : element -> A) (k : A -> js B) d h l e :
  d !! id = Some e ->
  (read_prop (Some id) prop f ≫= k) (World d h l) = k (f e) (World d h l).
Proof. intros H. unfold mbind, js_bind, read_prop. cbn. by rewrite H. Qed.

Lemma step_write_prop {B} id prop f (k : unit -> js B) d h l e :
  d !! id = Some e ->
  (write_prop (Some id) prop f ≫= k) (World d h l) = k tt (World (alter f id d) h l).
Proof. intros H. unfold mbind, js_bind, write_prop. cbn. by rewrite H. Qed.

Lemma run_write_prop id prop f d h l e :
  d !! id = Some e ->
  write_prop (Some id) prop f (World d h l) = (Normal tt, World (alter f id d) h l).
Proof. intros H. unfold write_prop. cbn. by rewrite H. Qed.

Lemma step_log {B} ef (k : unit -> js B) d h l :
  (log ef ≫= k) (World d h l) = k tt (World d h (l ++ [ef])).
Proof. reflexivity. Qed.

Lemma step_throw {A B} e (k : A -> js B) w :
  (throw e ≫= k) w = (Throw e, w).
Proof. reflexivity. Qed.

Lemma run_throw {A} e w : @throw A e w = (Throw e, w).
Proof. reflexivity. Qed.

Lemma step_ret {A B} (a : A) (k : A -> js B) w :
  (mret a ≫= k) w = k a w.
Proof. reflexivity. Qed.

Lemma emitted_app d h l d' h' l' :
  emitted (World d h l) (World d' h' (l ++ l')) = l'.
Proof. unfold emitted. cbn. apply drop_app_length. Qed.

End Steps.

(** ** Class lists *)

Lemma token_add_in t l : t ∈ token_add t l.
Proof.
  unfold token_add. case_bool_decide; [done|].
  apply elem_of_app. right. by apply list_elem_of_singleton.
Qed.

Lemma token_remove_not_in t l : t ∉ token_remove t l.
Proof.
  unfold token_remove. intros Hin. apply list_elem_of_filter in Hin as [Hne _]. done.
Qed.

Lemma token_remove_add t l : token_remove t (token_add t l) = token_remove t l.
Proof.
  unfold token_add. case_bool_decide; [done|].
  unfold token_remove. rewrite filter_app. cbn.
  rewrite decide_False by (by intros []). apply app_nil_r.
Qed.

Lemma token_remove_idemp t l : token_remove t (token_remove t l) = token_remove t l.
Proof.
  unfold token_remove. induction l as [|x l IH]; [done|].
  rewrite !filter_cons. case_decide; [|done].
  rewrite filter_cons, decide_True by done. by rewrite IH.
Qed.

Lemma token_add_idemp t l : token_add t (token_add t l) = token_add t l.
Proof.
  unfold token_add at 1. by rewrite bool_decide_eq_true_2 by apply token_add_in.
Qed.

(** Looks an id up through the writes made so far. *)
Ltac lookups :=
  repeat first
    [ rewrite lookup_alter_eq
    | rewrite lookup_alter_ne by discriminate
    | match goal with
      | H : ?d !! ?i = Some _ |- context [?d !! ?i] => rewrite H
      end ];
  cbn [fmap option_fmap option_map].

Ltac present := lookups; reflexivity.

(** One statement of a listener. *)
Ltac js_step :=
  first
    [ rewrite step_assoc
    | rewrite step_log
    | rewrite step_ret
    | rewrite step_throw
    | rewrite step_eval
    | erewrite step_getElementById by present
    | erewrite step_read_prop by present
    | erewrite step_write_prop by present
    | rewrite run_throw
    | erewrite run_write_prop by present ].

(** A listener run to its end, the reads of the body fed from the
    hypotheses. *)
Ltac js_run :=
  repeat first
    [ js_step
    | progress cbv beta iota
    | progress cbn [get response_json]
    | match goal with
      | H : get ?v ?k = _ |- context [get ?v ?k] => rewrite H
      end ].

(** Splits the contract into one lookup per element. *)
Ltac contract H :=
  unfold ui_contract, element_ids in H;
  repeat (apply Forall_cons in H as [[? ?] H]);
  clear H.

(** Decides a lookup in a stack of writes at an unknown id. *)
Ltac alter_cases i :=
  repeat match goal with
    | |- context [alter _ ?j _ !! i] =>
        destruct (decide (j = i)) as [<-|?];
        [ try congruence; lookups | rewrite !(lookup_alter_ne _ _ j i) by done ]
    end.

Ltac element_eq :=
  unfold set_classList, set_inner, set_src, set_onclick;
  cbn [classList value files inner_content src onclick];
  rewrite ?token_remove_add, ?token_remove_idemp, ?token_add_idemp,
    ?token_remove_add, ?token_remove_idemp, ?token_add_idemp;
  reflexivity.

Section Runs.
Context `{E : Engine}.

Lemma ui_contract_alter f id d : ui_contract d -> ui_contract (alter f id d).
Proof.
  unfold ui_contract. intros H. eapply Forall_impl; [exact H|].
  intros i Hi. by apply lookup_alter_is_Some.
Qed.

Lemma upload_submit_try r d h l fi f fs lo re :
  d !! "fileInput" = Some fi -> files fi = f :: fs ->
  d !! "loading" = Some lo -> d !! "results" = Some re ->
  upload_submit r (World d h l)
  = try_catch (analyze f r) report_failure (try_entry (World d h l)).
Proof.
  intros Hfi Hfiles Hlo Hre. unfold upload_submit, preventDefault.
  do 3 js_step. rewrite Hfiles. by repeat js_step.
Qed.

Lemma report_failure_run e d h l lo :
  d !! "loading" = Some lo ->
  report_failure e (World d h l)
  = (Normal tt, World (alter (set_classList (token_add "d-none")) "loading" d) h
                  (l ++ [Alert ("Error: " +:+ message e)])).
Proof. intros Hlo. unfold report_failure, alert. by repeat js_step. Qed.

Lemma analyze_rejected f e d h l :
  analyze f (Rejected e) (World d h l)
  = (Throw e, World d h (l ++ [Fetch (analyze_request f)])).
Proof. unfold analyze, fetch. by repeat js_step. Qed.

Lemma analyze_not_json f e d h l :
  analyze f (NotJson e) (World d h l)
  = (Throw e, World d h (l ++ [Fetch (analyze_request f)])).
Proof. unfold analyze, fetch. repeat js_step. cbn [response_json]. by repeat js_step. Qed.

Lemma analyze_json f data d h l :
  analyze f (Json data) (World d h l)
  = let w := World d h (l ++ [Fetch (analyze_request f)]) in
    match get data "error" with
    | Throw e => (Throw e, w)
    | Normal error =>
        if to_boolean error then (Throw (Error (to_string error)), w)
        else render_analysis data w
    end.
Proof.
  unfold analyze, fetch. repeat js_step. cbn [response_json]. repeat js_step.
  cbn zeta. destruct (get data "error") as [error|e]; [|done].
  by destruct (to_boolean error).
Qed.

Lemma get_nullish v k :
  nullish v = true -> get v k = Throw (TypeError (cannot_read v k)).
Proof. by destruct v. Qed.

Lemma get_not_nullish v k :
  nullish v = false -> ∃ x, get v k = Normal x.
Proof. destruct v; try done; eauto. Qed.

Lemma render_analysis_nullish data statistics d h l tr :
  d !! "totalRecords" = Some tr ->
  get data "statistics" = Normal statistics ->
  nullish statistics = true ->
  render_analysis data (World d h l)
  = (Throw (TypeError (cannot_read statistics "total_records")), World d h l).
Proof.
  intros Htr Hst Hnull. unfold render_analysis.
  do 2 js_step. rewrite Hst. js_step. by rewrite get_nullish.
Qed.

Lemma render_analysis_run fields d h l :
  ui_contract d ->
  nullish (assoc "statistics" fields) = false ->
  render_analysis (VObj fields) (World d h l)
  = render_recommendations (VObj fields) (World (unpacked (VObj fields) d) h l).
Proof.
  intros Hui Hst. contract Hui. unfold render_analysis, unpacked.
  cbn [get].
  destruct (get_not_nullish _ "total_records" Hst) as [a1 Ha1].
  destruct (get_not_nullish _ "anomaly_count" Hst) as [a2 Ha2].
  destruct (get_not_nullish _ "anomaly_percentage" Hst) as [a3 Ha3].
  by js_run.
Qed.

Lemma render_recommendations_run data recommendations d h l rl rc :
  d !! "recommendationsList" = Some rl ->
  d !! "recommendationsCard" = Some rc ->
  get data "recommendations" = Normal recommendations ->
  render_recommendations data (World d h l)
  = let '(c, d') := recommendations_outcome recommendations d in (c, World d' h l).
Proof.
  intros Hrl Hrc Hget. unfold render_recommendations, recommendations_outcome.
  js_run.
  destruct (has_recommendations recommendations) as [[]|e]; [| |done].
  - js_run.
    destruct (array_map _ _ _) as [cards|e]; [|done].
    by js_run.
  - by js_run.
Qed.

Lemma recommendations_outcome_frame recommendations d c d' id :
  recommendations_outcome recommendations d = (c, d') ->
  id ≠ "recommendationsList" -> id ≠ "recommendationsCard" ->
  d' !! id = d !! id.
Proof.
  unfold recommendations_outcome. intros Hout Hl Hc.
  destruct (has_recommendations recommendations) as [[]|e];
    [destruct (array_map _ _ _) as [cards|e]| |];
    inversion Hout; subst; clear Hout;
    by rewrite ?lookup_alter_ne by done.
Qed.

(** The submit listener on an object body with no truthy [error] and
    with statistics that can be read: lines 78-94 run, then the
    recommendations are rendered, and an exception thrown there is reported
    by the catch block. *)
Lemma upload_submit_unpacked fields d h l f :
  ui_contract d ->
  selected_file d = Some f ->
  to_boolean (assoc "error" fields) = false ->
  nullish (assoc "statistics" fields) = false ->
  let d1 := unpacked (VObj fields) (document (try_entry (World d h l))) in
  let l1 := (l ++ [PreventDefault; Fetch (analyze_request f)])%list in
  upload_submit (Json (VObj fields)) (World d h l)
  = match recommendations_outcome (assoc "recommendations" fields) d1 with
    | (Normal _, d2) => (Normal tt, World d2 h l1)
    | (Throw e, d2) =>
        (Normal tt,
         World (alter (set_classList (token_add "d-none")) "loading" d2) h
           (l1 ++ [Alert ("Error: " +:+ message e)]))
    end.
Proof.
  intros Hui Hsel Herr Hst. unfold try_entry. cbn [document location_href effects].
  set (d0 := alter _ "results" _).
  assert (Hui0 : ui_contract d0) by (by repeat apply ui_contract_alter).
  assert (Hui1 : ui_contract (unpacked (VObj fields) d0)).
  { unfold unpacked. by repeat apply ui_contract_alter. }
  unfold selected_file in Hsel.
  destruct (d !! "fileInput") as [fi|] eqn:Hfi; [|done]. cbn in Hsel.
  destruct (files fi) as [|f' fs] eqn:Hfiles; [done|]. injection Hsel as ->.
  contract Hui.
  erewrite (upload_submit_try _ _ _ _ _ _ _ _ _ Hfi Hfiles) by eassumption.
  unfold try_catch, try_entry. cbn [document location_href effects]. fold d0.
  rewrite analyze_json. cbn [get]. rewrite Herr. cbn zeta.
  rewrite render_analysis_run by done.
  rewrite <- app_assoc. cbn [app].
  set (d1 := unpacked (VObj fields) d0) in *.
  clearbody d1. clear -Hui1. pose proof Hui1 as Hui. contract Hui.
  erewrite render_recommendations_run by (eassumption || reflexivity).
  destruct (recommendations_outcome _ d1) as [[[]|e] d2] eqn:Hout; [done|].
  assert (Hlo : is_Some (d2 !! "loading")).
  { erewrite recommendations_outcome_frame by (done || eassumption). eauto. }
  destruct Hlo as [lo Hlo].
  by erewrite report_failure_run by eassumption.
Qed.

Lemma mapM_render_item subs :
  mapM render_item subs = Normal (map (λ r, list_item (to_string r)) subs).
Proof.
  induction subs as [|r subs IH]; [done|].
  cbn [mapM map]. rewrite IH. reflexivity.
Qed.

Lemma render_recommendation_card rec :
  recommendation_shape rec ->
  ∃ card, render_recommendation rec = Normal card ∧ card_for rec card.
Proof.
  intros (fields & subs & -> & Hsubs).
  unfold render_recommendation. cbn [get mbind completion_bind].
  rewrite Hsubs. cbn [array_map]. rewrite mapM_render_item.
  eexists. split; [reflexivity|].
  exists fields, subs. split; [done|]. split; [done|].
  unfold recommendation_card. rewrite map_map.
  by destruct (strict_eq_string _ _).
Qed.

Lemma mapM_render_recommendation recs :
  Forall recommendation_shape recs ->
  ∃ cards, mapM render_recommendation recs = Normal cards
           ∧ Forall2 card_for recs cards.
Proof.
  induction 1 as [|rec recs Hrec _ (cards & Hcards & Hall)].
  - exists []. split; [done|constructor].
  - destruct (render_recommendation_card rec Hrec) as (card & Hcard & Hfor).
    exists (card :: cards). split; [|by constructor].
    cbn [mapM]. rewrite Hcard. cbn [mbind completion_bind]. by rewrite Hcards.
Qed.

Lemma generate_click_run r d h l sd du gs :
  d !! "startDate" = Some sd ->
  d !! "duration" = Some du ->
  d !! "generationStatus" = Some gs ->
  value sd ≠ "" ->
  generate_click r (World d h l)
  = (Normal tt,
     World (alter (set_inner (InnerHTML (generation_markup r))) "generationStatus"
              (alter (set_classList (token_remove "d-none")) "generationStatus" d))
           h (l ++ [Fetch (generate_request (value sd) (value du))])).
Proof.
  intros Hsd Hdu Hgs Hne. unfold generate_click. do 4 js_step.
  assert (Hb : negb (to_boolean (VStr (value sd))) = false).
  { cbn [to_boolean]. rewrite negb_involutive. by apply String.eqb_neq. }
  rewrite Hb. do 2 js_step. unfold try_catch, fetch. do 2 js_step.
  destruct r as [e|e|data]; cbn [generation_markup].
  - js_run. reflexivity.
  - js_run. reflexivity.
  - js_run. destruct (get data "error") as [error|e] eqn:Herror; [|by js_run].
    destruct (to_boolean error); [by js_run|].
    js_step. destruct (get data "filename") as [filename|e]; by js_run.
Qed.

Lemma contains_danger_banner m :
  contains (attr "class" "alert alert-danger") (danger_banner m)
  ∧ contains ("Error generating sample data: " +:+ m) (danger_banner m).
Proof.
  split.
  - exists (row 12 "<div "), (">" +:+ row 16 ("Error generating sample data: " +:+ m) +:+
                             row 12 "</div>" +:+ row 8 "").
    reflexivity.
  - exists (row 12 ("<div " +:+ attr "class" "alert alert-danger" +:+ ">") +:+ row 16 ""),
           (row 12 "</div>" +:+ row 8 "").
    reflexivity.
Qed.

Lemma not_alert_fetch a req : Alert a ∉ [Fetch req].
Proof. intros Hin. apply list_elem_of_singleton in Hin. discriminate. Qed.

Lemma upload_submit_catch r d h l f :
  ui_contract d ->
  selected_file d = Some f ->
  upload_submit r (World d h l)
  = try_catch (analyze f r) report_failure (try_entry (World d h l)).
Proof.
  intros Hui Hsel. unfold selected_file in Hsel.
  destruct (d !! "fileInput") as [fi|] eqn:Hfi; [|done]. cbn in Hsel.
  destruct (files fi) as [|f' fs] eqn:Hfiles; [done|]. injection Hsel as ->.
  contract Hui.
  by erewrite (upload_submit_try _ _ _ _ _ _ _ _ _ Hfi Hfiles) by eassumption.
Qed.

Lemma unpacks_dec r : unpacks r ∨ ¬ unpacks r.
Proof.
  destruct r as [e|e|data]; [right; by intros (? & ? & _)..|].
  destruct data as [| | | | | |fields]; try (right; by intros (? & ? & _)).
  destruct (to_boolean (assoc "error" fields)) eqn:Herr.
  { right. intros (? & [= <-] & ? & _). congruence. }
  destruct (nullish (assoc "statistics" fields)) eqn:Hst.
  { right. intros (? & [= <-] & _ & ?). congruence. }
  left. by exists fields.
Qed.

(** A reply that does not pass lines 73-94 makes the [try] block throw
    before anything is written. *)
Lemma analyze_not_unpacked f r d h l tr :
  d !! "totalRecords" = Some tr ->
  ¬ unpacks r ->
  ∃ e, analyze f r (World d h l)
       = (Throw e, World d h (l ++ [Fetch (analyze_request f)])).
Proof.
  intros Htr Hnot. destruct r as [e|e|data].
  - eexists. apply analyze_rejected.
  - eexists. apply analyze_not_json.
  - rewrite analyze_json. cbn zeta.
    destruct (get data "error") as [error|e] eqn:Herror; [|by eexists].
    destruct (to_boolean error) eqn:Htruthy; [by eexists|].
    assert (Hdata : nullish data = false) by (by destruct data).
    destruct (get_not_nullish data "statistics" Hdata) as [statistics Hst].
    destruct (nullish statistics) eqn:Hnull.
    { eexists. by eapply render_analysis_nullish. }
    destruct data as [| | | | | |fields];
      try done; try (cbn in Hst; injection Hst as <-; done).
    destruct Hnot. exists fields. cbn in Herror, Hst.
    injection Herror as <-. injection Hst as <-. done.
Qed.



Lemma upload_submit_no_file_run r d h l fi :
  d !! "fileInput" = Some fi ->
  files fi !! 0%nat = None ->
  ∃ l', upload_submit r (World d h l) = (Normal tt, World d h l').
Proof.
  intros Hfi Hnone. destruct (files fi) as [|f fs] eqn:Hfiles; [|discriminate].
  unfold upload_submit, preventDefault. do 3 js_step. rewrite Hfiles.
  unfold alert. by eexists.
Qed.

Lemma upload_submit_not_unpacked r d h l f :
  ui_contract d ->
  selected_file d = Some f ->
  ¬ unpacks r ->
  ∃ l', upload_submit r (World d h l)
        = (Normal tt,
           World (alter (set_classList (token_add "d-none")) "loading"
                    (document (try_entry (World d h l)))) h l').
Proof.
  intros Hui Hsel Hnot. rewrite (upload_submit_catch _ _ _ _ f) by done.
  unfold try_catch, try_entry. cbn [document location_href effects].
  set (d0 := alter _ "results" _).
  assert (Hui0 : ui_contract d0) by (by repeat apply ui_contract_alter).
  contract Hui0.
  edestruct (analyze_not_unpacked f r d0 h (l ++ [PreventDefault]))
    as [e' ->]; [eassumption|done|].
  erewrite report_failure_run by eassumption. by eexists.
Qed.

Lemma recommendations_outcome_cases recommendations :
  (∃ cards, ∀ d,
     recommendations_outcome recommendations d
     = (Normal tt,
        alter (set_classList (token_remove "d-none")) "recommendationsCard"
          (alter (set_inner (InnerHTML (concat_strings cards)))
             "recommendationsList" d)))
  ∨ (∀ d, recommendations_outcome recommendations d
          = (Normal tt,
             alter (set_classList (token_add "d-none")) "recommendationsCard" d))
  ∨ (∃ e, ∀ d, recommendations_outcome recommendations d = (Throw e, d)).
Proof.
  unfold recommendations_outcome.
  destruct (has_recommendations recommendations) as [[]|e].
  - destruct (array_map _ _ _) as [cards|e]; [left|right; right]; by eexists.
  - right. by left.
  - right. right. by eexists.
Qed.

Lemma selected_file_alter f id d :
  id ≠ "fileInput" -> selected_file (alter f id d) = selected_file d.
Proof. intros Hne. unfold selected_file. by rewrite lookup_alter_ne. Qed.

Lemma upload_submit_unpacked_frame fields w f :
  ui_contract (document w) ->
  selected_file (document w) = Some f ->
  to_boolean (assoc "error" fields) = false ->
  nullish (assoc "statistics" fields) = false ->
  ∃ w', upload_submit (Json (VObj fields)) w = (Normal tt, w')
        ∧ ∀ id, id ≠ "recommendationsList" -> id ≠ "recommendationsCard" ->
                id ≠ "loading" ->
                document w' !! id
                = unpacked (VObj fields) (document (try_entry w)) !! id.
Proof.
  destruct w as [d h l]. cbn [document]. intros Hui Hsel Herr Hst.
  rewrite (upload_submit_unpacked _ _ _ _ f) by done.
  destruct (recommendations_outcome _ _) as [[[]|e] d2] eqn:Hout;
    (eexists; split; [reflexivity|]); cbn [document]; intros id Hl Hc Hlo.
  - by eapply recommendations_outcome_frame.
  - rewrite lookup_alter_ne by done. by eapply recommendations_outcome_frame.
Qed.

End Runs.

Section Claims.
Context `{E : Engine}.

(** C3: a click on [generateBtn] while the start date is empty alerts
    "Please select a start date" and returns; the run adds nothing else
    to the log, so no request to [/generate_data] is made, and the
    document is left as it was. *)
Theorem generate_click_empty_start_date (r : reply) (w : world) (sd du : element) :
  document w !! "startDate" = Some sd ->
  document w !! "duration" = Some du ->
  value sd = "" ->
  ∃ w', generate_click r w = (Normal tt, w')
        ∧ emitted w w' = [Alert "Please select a start date"]
        ∧ (∀ req, Fetch req ∉ emitted w w')
        ∧ document w' = document w.
Proof.
  destruct w as [d h l]. cbn [document]. intros Hsd Hdu Hempty.
  eexists. split.
  - unfold generate_click. do 4 js_step.
    rewrite Hempty. cbn [to_boolean String.eqb negb]. unfold alert, log.
    cbn [document location_href effects]. reflexivity.
  - rewrite emitted_app.
    split; [done|]. split; [|done].
    intros req Hin. apply list_elem_of_singleton in Hin. discriminate.
Qed.

(** C4: a submit of [uploadForm] while no file is selected prevents the
    default submission, alerts "Please select a file" and returns; the run
    adds nothing else to the log, so no request to [/analyze] is made. *)
Theorem upload_submit_no_file (r : reply) (w : world) (fi : element) :
  document w !! "fileInput" = Some fi ->
  files fi !! 0%nat = None ->
  ∃ w', upload_submit r w = (Normal tt, w')
        ∧ emitted w w' = [PreventDefault; Alert "Please select a file"]
        ∧ (∀ req, Fetch req ∉ emitted w w')
        ∧ document w' = document w.
Proof.
  destruct w as [d h l]. cbn [document]. intros Hfi Hnone.
  destruct (files fi) as [|f fs] eqn:Hfiles; [|discriminate].
  eexists. split.
  - unfold upload_submit, preventDefault. do 3 js_step.
    rewrite Hfiles. unfold alert, log. cbn [document location_href effects].
    reflexivity.
  - rewrite <- app_assoc, emitted_app.
    split; [done|]. split; [|done].
    intros req Hin. apply elem_of_cons in Hin as [Hin|Hin]; [discriminate|].
    apply list_elem_of_singleton in Hin. discriminate.
Qed.

(** C1: a body with no truthy [error], statistics
    [{total_records: 100, anomaly_count: 5, anomaly_percentage: 5}] and
    timestamp ["t1"] leaves the three statistic fields reading "100", "5"
    and "5%", the two images pointing at [/visualization/t1/scatter] and
    [/visualization/t1/distribution], and a click listener on
    [downloadBtn] that navigates to [/download/t1]. *)
Theorem upload_submit_renders_statistics
    (fields stats : list (string * jsval)) (w : world) (f : file) :
  ui_contract (document w) ->
  selected_file (document w) = Some f ->
  to_boolean (assoc "error" fields) = false ->
  assoc "statistics" fields = VObj stats ->
  assoc "total_records" stats = VNum 100 ->
  assoc "anomaly_count" stats = VNum 5 ->
  assoc "anomaly_percentage" stats = VNum 5 ->
  assoc "timestamp" fields = VStr "t1" ->
  ∃ w', upload_submit (Json (VObj fields)) w = (Normal tt, w')
        ∧ shows "totalRecords" (TextContent "100") w'
        ∧ shows "anomalyCount" (TextContent "5") w'
        ∧ shows "anomalyPercentage" (TextContent "5%") w'
        ∧ has_src "scatterPlot" "/visualization/t1/scatter" w'
        ∧ has_src "distributionPlot" "/visualization/t1/distribution" w'
        ∧ click_navigates "downloadBtn" "/download/t1" w'.
Proof.
  intros Hui Hsel Herr Hstats Htotal Hcount Hpct Hts.
  destruct (upload_submit_unpacked_frame fields w f) as (w' & Hrun & Hframe);
    [done|done|done|by rewrite Hstats|].
  exists w'. split; [done|].
  unfold shows, has_src, click_navigates.
  rewrite !Hframe by done.
  unfold unpacked, try_entry. cbn [document get].
  rewrite Hstats, Hts. cbn [get]. rewrite Htotal, Hcount, Hpct.
  contract Hui. lookups.
  repeat split; try (eexists; split; [reflexivity|reflexivity]).
  do 2 eexists. split; [reflexivity|]. split; [reflexivity|].
  intros w''. unfold run_listener. cbn [get]. rewrite Hts. by js_run.
Qed.

(** C6: a plain body with no truthy [error] whose [recommendations] field
    is the empty list, or is absent, ends with [d-none] on
    [recommendationsCard]; the listener writes nothing into
    [recommendationsList] and reports no error. *)
Theorem upload_submit_no_recommendations
    (fields : list (string * jsval)) (w : world) (f : file) :
  ui_contract (document w) ->
  selected_file (document w) = Some f ->
  plain (VObj fields) = true ->
  to_boolean (assoc "error" fields) = false ->
  nullish (assoc "statistics" fields) = false ->
  assoc "recommendations" fields = VArr []
  ∨ assoc "recommendations" fields = VUndefined ->
  ∃ w', upload_submit (Json (VObj fields)) w = (Normal tt, w')
        ∧ hidden "recommendationsCard" w'
        ∧ document w' !! "recommendationsList" = document w !! "recommendationsList"
        ∧ emitted w w' = [PreventDefault; Fetch (analyze_request f)].
Proof.
  destruct w as [d h l]. cbn [document]. intros Hui Hsel _ Herr Hst Hrecs.
  rewrite (upload_submit_unpacked _ _ _ _ f) by done.
  assert (Hout : ∀ d1, recommendations_outcome (assoc "recommendations" fields) d1
                       = (Normal tt,
                          alter (set_classList (token_add "d-none"))
                            "recommendationsCard" d1)).
  { intros d1. by destruct Hrecs as [-> | ->]. }
  rewrite Hout. eexists. split; [reflexivity|].
  unfold hidden, unpacked, try_entry. cbn [document]. contract Hui. lookups.
  split; [|split; [done|by rewrite emitted_app]].
  eexists. split; [reflexivity|]. apply token_add_in.
Qed.

(** C5: a plain body with no truthy [error] and a non-empty list of
    recommendations, each of the shape the data model gives, removes
    [d-none] from [recommendationsCard] and writes into
    [recommendationsList] one card per recommendation, in order: titled
    "<type> (<severity> Severity)", the title of class [text-danger] when
    the severity is "HIGH" and [text-warning] otherwise, then the
    description paragraph and one list item per sub-recommendation. *)
Theorem upload_submit_renders_recommendations
    (fields : list (string * jsval)) (recs : list jsval) (w : world) (f : file) :
  ui_contract (document w) ->
  selected_file (document w) = Some f ->
  plain (VObj fields) = true ->
  to_boolean (assoc "error" fields) = false ->
  nullish (assoc "statistics" fields) = false ->
  assoc "recommendations" fields = VArr recs ->
  recs ≠ [] ->
  Forall recommendation_shape recs ->
  ∃ w' cards,
    upload_submit (Json (VObj fields)) w = (Normal tt, w')
    ∧ visible "recommendationsCard" w'
    ∧ shows "recommendationsList" (InnerHTML (concat_strings cards)) w'
    ∧ Forall2 card_for recs cards.
Proof.
  destruct w as [d h l]. cbn [document].
  intros Hui Hsel _ Herr Hst Hrecs Hne Hshape.
  destruct (mapM_render_recommendation recs Hshape) as (cards & Hcards & Hfor).
  rewrite (upload_submit_unpacked _ _ _ _ f) by done.
  assert (Hout : ∀ d1, recommendations_outcome (assoc "recommendations" fields) d1
                       = (Normal tt,
                          alter (set_classList (token_remove "d-none"))
                            "recommendationsCard"
                            (alter (set_inner (InnerHTML (concat_strings cards)))
                               "recommendationsList" d1))).
  { intros d1. rewrite Hrecs. unfold recommendations_outcome, has_recommendations.
    cbn [to_boolean get mbind completion_bind gt_zero array_map].
    rewrite Hcards. destruct recs; [done|]. reflexivity. }
  rewrite Hout. exists (World
    (alter (set_classList (token_remove "d-none")) "recommendationsCard"
       (alter (set_inner (InnerHTML (concat_strings cards))) "recommendationsList"
          (unpacked (VObj fields) (document (try_entry (World d h l))))))
    h (l ++ [PreventDefault; Fetch (analyze_request f)])), cards.
  split; [reflexivity|].
  unfold visible, shows, unpacked, try_entry. cbn [document]. contract Hui. lookups.
  split; [|split; [|done]].
  - eexists. split; [reflexivity|]. apply token_remove_not_in.
  - eexists. split; reflexivity.
Qed.


(** C7: a generation body with no truthy [error] and filename
    ["sample.csv"] leaves the status region visible, holding the success
    banner with a link whose [href] is [/download_sample/sample.csv]. *)
Theorem generate_click_success
    (fields : list (string * jsval)) (w : world) (sd du gs : element) :
  document w !! "startDate" = Some sd ->
  document w !! "duration" = Some du ->
  document w !! "generationStatus" = Some gs ->
  value sd ≠ "" ->
  to_boolean (assoc "error" fields) = false ->
  assoc "filename" fields = VStr "sample.csv" ->
  ∃ w' html,
    generate_click (Json (VObj fields)) w = (Normal tt, w')
    ∧ visible "generationStatus" w'
    ∧ shows "generationStatus" (InnerHTML html) w'
    ∧ contains (attr "class" "alert alert-success") html
    ∧ contains ("<a " +:+ attr "href" "/download_sample/sample.csv") html.
Proof.
  destruct w as [d h l]. cbn [document]. intros Hsd Hdu Hgs Hne Herr Hfile.
  erewrite generate_click_run by eassumption.
  cbn [generation_markup get]. rewrite Herr, Hfile.
  do 2 eexists. split; [reflexivity|].
  unfold visible, shows. cbn [document]. lookups.
  split; [eexists; split; [reflexivity|apply token_remove_not_in]|].
  split; [eexists; split; reflexivity|].
  split.
  - exists (row 12 "<div "),
      (">" +:+ row 16 "Sample data generated successfully!" +:+
       row 16 ("<a " +:+ attr "href" "/download_sample/sample.csv" +:+ " " +:+
               attr "class" "btn btn-sm btn-primary ms-2" +:+ ">Download</a>") +:+
       row 12 "</div>" +:+ row 8 "").
    reflexivity.
  - exists (row 12 ("<div " +:+ attr "class" "alert alert-success" +:+ ">") +:+
            row 16 "Sample data generated successfully!" +:+ row 16 ""),
      (" " +:+ attr "class" "btn btn-sm btn-primary ms-2" +:+ ">Download</a>" +:+
       row 12 "</div>" +:+ row 8 "").
    reflexivity.
Qed.

(** C8: a generation body [{error: "bad range"}] leaves in the status
    region a danger banner with the text
    "Error generating sample data: bad range", and a request that fails
    with an exception of message [m] leaves one with
    "Error generating sample data: " followed by [m]; neither shows an
    alert. *)
Theorem generate_click_failure (w : world) (sd du gs : element) :
  document w !! "startDate" = Some sd ->
  document w !! "duration" = Some du ->
  document w !! "generationStatus" = Some gs ->
  value sd ≠ "" ->
  (∀ fields, assoc "error" fields = VStr "bad range" ->
     ∃ w', generate_click (Json (VObj fields)) w = (Normal tt, w')
           ∧ inline_error "bad range" w w')
  ∧ (∀ e, ∃ w', generate_click (Rejected e) w = (Normal tt, w')
                ∧ inline_error (message e) w w').
Proof.
  destruct w as [d h l]. cbn [document]. intros Hsd Hdu Hgs Hne.
  split; [intros fields Herr|intros e];
    (erewrite generate_click_run by eassumption);
    cbn [generation_markup get]; rewrite ?Herr; cbn [to_boolean String.eqb negb to_string];
    (eexists; split; [reflexivity|]);
    (eexists; split; [unfold shows; cbn [document]; lookups;
                      eexists; split; reflexivity|]);
    (split; [apply contains_danger_banner|]);
    (split; [apply contains_danger_banner|]);
    intros a; rewrite emitted_app; apply not_alert_fetch.
Qed.


(** C10: the submit listener is idempotent on the document: for every
    reply, and so for every successful response, running it twice on that
    reply leaves the document that running it once leaves.  Every write is
    an assignment or a class-list update; nothing is appended. *)
Theorem upload_submit_idempotent (r : reply) (w : world) :
  ui_contract (document w) ->
  let once := (upload_submit r w).2 in
  let twice := (upload_submit r once).2 in
  document twice = document once.
Proof.
  destruct w as [d h l]. cbn [document]. intros Hui. cbv zeta.
  destruct (selected_file d) as [f|] eqn:Hsel.
  2:{ unfold selected_file in Hsel.
      pose proof Hui as Hui'. contract Hui'.
      match goal with H : d !! "fileInput" = Some ?x |- _ =>
        rename H into Hfi; rename x into fi end.
      rewrite Hfi in Hsel. cbn in Hsel.
      destruct (upload_submit_no_file_run r d h l fi Hfi Hsel) as [l1 ->].
      cbn [snd].
      by destruct (upload_submit_no_file_run r d h l1 fi Hfi Hsel) as [l2 ->]. }
  destruct (unpacks_dec r) as [(fields & -> & Herr & Hst) | Hnot].
  - rewrite (upload_submit_unpacked _ _ _ _ f) by done.
    unfold try_entry. cbn [document].
    destruct (recommendations_outcome_cases (assoc "recommendations" fields))
      as [[cards Hout] | [Hout | [e Hout]]];
      rewrite Hout; cbn [snd document];
      (rewrite (upload_submit_unpacked _ _ _ _ f);
         [|unfold unpacked; by repeat apply ui_contract_alter
          |unfold unpacked; by rewrite !selected_file_alter by done|done|done]);
      unfold try_entry; rewrite Hout; cbn [snd document]; unfold unpacked;
      contract Hui; apply map_eq; intros i;
      (alter_cases i; [..|done]); lookups; f_equal; element_eq.
  - destruct (upload_submit_not_unpacked r d h l f Hui Hsel Hnot) as [l1 ->].
    cbn [snd document]. unfold try_entry. cbn [document].
    set (d1 := alter _ "loading" _).
    destruct (upload_submit_not_unpacked r d1 h l1 f) as [l2 ->];
      [subst d1; by repeat apply ui_contract_alter
      |subst d1; by rewrite !selected_file_alter by done
      |done|].
    cbn [snd document]. unfold try_entry. cbn [document]. subst d1.
    contract Hui. apply map_eq. intros i.
    (alter_cases i; [..|done]); lookups; f_equal; element_eq.
Qed.

End Claims.

(** ** What the listeners keep *)

Section Keeps.
Context `{E : Engine}.

Lemma within_refl ids w : within ids w w.
Proof.
  split; [done|]. split; [done|]. split; [|done].
  intros id. destruct (document w !! id); constructor. by split.
Qed.

Lemma within_trans ids w1 w2 w3 :
  within ids w1 w2 -> within ids w2 w3 -> within ids w1 w3.
Proof.
  intros (Hh1 & Hl1 & Hi1 & Hf1) (Hh2 & Hl2 & Hi2 & Hf2).
  split; [congruence|]. split; [by etrans|]. split.
  - intros id. specialize (Hi1 id). specialize (Hi2 id).
    destruct Hi1 as [e1 e2 [Hv1 Hs1]|]; inversion Hi2 as [? e3 [Hv2 Hs2]|]; subst;
      constructor. split; congruence.
  - intros id Hid. rewrite Hf2, Hf1; done.
Qed.

Lemma keeps_ret {A} ids (a : A) : keeps ids (mret a).
Proof. intros w. apply within_refl. Qed.

Lemma keeps_eval {A} ids (c : completion A) : keeps ids (eval c).
Proof. intros w. apply within_refl. Qed.

Lemma keeps_throw {A} ids e : keeps ids (@throw A e).
Proof. intros w. apply within_refl. Qed.

Lemma keeps_log ids ef : keeps ids (log ef).
Proof.
  intros [d h l]. cbn. split; [done|]. split; [by apply prefix_app_r|].
  split; [|done]. intros id. cbn [document].
  destruct (d !! id); constructor. by split.
Qed.

Lemma keeps_read_prop {A} ids n prop (f : element -> A) : keeps ids (read_prop n prop f).
Proof.
  intros w. unfold read_prop. destruct (n ≫= _); apply within_refl.
Qed.

Lemma keeps_write_prop ids n prop f :
  (∀ id, n = Some id -> id ∈ ids) ->
  (∀ e, same_input e (f e)) ->
  keeps ids (write_prop n prop f).
Proof.
  intros Hn Hf [d h l]. unfold write_prop. cbn [document location_href effects].
  destruct n as [id|]; [|apply within_refl]. cbn.
  destruct (d !! id) as [e|] eqn:He; [|apply within_refl]. cbn.
  split; [done|]. split; [done|]. cbn. split.
  - intros i. destruct (decide (id = i)) as [<-|Hne].
    + rewrite lookup_alter_eq, He. constructor. apply Hf.
    + rewrite lookup_alter_ne by done. destruct (d !! i); constructor. by split.
  - intros i Hi. apply lookup_alter_ne. intros <-. apply Hi. by apply Hn.
Qed.

Lemma keeps_bind {A B} ids (c : js A) (k : A -> js B) :
  keeps ids c -> (∀ a, keeps ids (k a)) -> keeps ids (c ≫= k).
Proof.
  intros Hc Hk w. specialize (Hc w). unfold mbind, js_bind.
  destruct (c w) as [[a|e] w1]; [|done].
  eapply within_trans; [exact Hc|apply Hk].
Qed.

Lemma keeps_getElementById {B} ids id (k : node -> js B) :
  keeps ids (k None) -> keeps ids (k (Some id)) -> keeps ids (getElementById id ≫= k).
Proof.
  intros Hnone Hsome w. unfold mbind, js_bind, getElementById.
  destruct (document w !! id); [apply Hsome|apply Hnone].
Qed.

Lemma keeps_try_catch {A} ids (c : js A) (h : exn -> js A) :
  keeps ids c -> (∀ e, keeps ids (h e)) -> keeps ids (try_catch c h).
Proof.
  intros Hc Hh w. specialize (Hc w). unfold try_catch.
  destruct (c w) as [[a|e] w1]; [done|].
  eapply within_trans; [exact Hc|apply Hh].
Qed.

End Keeps.

(** Walks a listener statement by statement. *)
Ltac keeps_walk :=
  repeat first
    [ apply keeps_getElementById
    | apply keeps_write_prop;
        [ intros ? [= <-]; apply (bool_decide_unpack _); by vm_compute
        | intros ?; by split ]
    | apply keeps_read_prop
    | apply keeps_log
    | apply keeps_eval
    | apply keeps_throw
    | apply keeps_ret
    | apply keeps_try_catch; [|intros ?]
    | apply keeps_bind; [|intros ?]
    | match goal with
      | |- keeps _ (if ?b then _ else _) => destruct b
      | |- keeps _ (match ?x with _ => _ end) => destruct x
      end ].

Section Extras.
Context `{E : Engine}.

Lemma keeps_report_failure e : keeps submit_targets (report_failure e).
Proof. unfold report_failure, alert. keeps_walk. Qed.

Lemma keeps_render_recommendations data :
  keeps submit_targets (render_recommendations data).
Proof. unfold render_recommendations. keeps_walk. Qed.

Lemma keeps_render_analysis data : keeps submit_targets (render_analysis data).
Proof.
  unfold render_analysis. keeps_walk.
Qed.

Lemma keeps_analyze f r : keeps submit_targets (analyze f r).
Proof.
  unfold analyze, fetch, response_json. keeps_walk; apply keeps_render_analysis.
Qed.

Lemma keeps_upload_submit_rest r :
  keeps submit_targets
    (fileInput ← getElementById "fileInput";
     selected ← read_prop fileInput "files" files;
     match selected with
     | [] => alert "Please select a file"
     | file :: _ =>
         loading ← getElementById "loading";
         write_prop loading "classList" (set_classList (token_remove "d-none")) ;;
         results ← getElementById "results";
         write_prop results "classList" (set_classList (token_add "d-none")) ;;
         try_catch (analyze file r) report_failure
     end).
Proof. unfold alert. keeps_walk. unfold response_json. keeps_walk. Qed.

Lemma keeps_upload_submit r : keeps submit_targets (upload_submit r).
Proof.
  unfold upload_submit, preventDefault.
  apply keeps_bind; [apply keeps_log|]. intros _. apply keeps_upload_submit_rest.
Qed.

(** X1: whatever the page and the reply, a run of the submit listener
    first prevents the default submission, never changes the address,
    only extends the log, keeps every element that exists with the value
    and the selected files it had, and writes to no element other than the
    ten of [submit_targets]. *)
Theorem upload_submit_keeps (r : reply) (w : world) :
  let w' := (upload_submit r w).2 in
  within submit_targets w w'
  ∧ ∃ rest, effects w' = (effects w ++ PreventDefault :: rest)%list.
Proof.
  cbv zeta. split; [apply keeps_upload_submit|].
  destruct w as [d h l].
  destruct (keeps_upload_submit_rest r (World d h (l ++ [PreventDefault])))
    as (_ & [rest Hl] & _).
  unfold upload_submit, preventDefault. rewrite step_log.
  exists rest. cbn in *. by rewrite Hl, <- app_assoc.
Qed.

(** X2: whatever the page and the reply, a run of the click listener of
    [generateBtn] never changes the address, only extends the log, keeps
    every element that exists with the value and the selected files it
    had, and writes to no element other than [generationStatus]. *)
Theorem generate_click_keeps (r : reply) (w : world) :
  within generate_targets w (generate_click r w).2.
Proof.
  revert w. change (keeps generate_targets (generate_click r)).
  unfold generate_click, alert, fetch, response_json. keeps_walk.
Qed.


Lemma step_getElementById_null {B} id (k : node -> js B) d h l :
  d !! id = None ->
  (getElementById id ≫= k) (World d h l) = k None (World d h l).
Proof. intros H. unfold mbind, js_bind, getElementById. cbn. by rewrite H. Qed.

Lemma not_empty_truthy s : s ≠ "" -> negb (to_boolean (VStr s)) = false.
Proof.
  intros Hne. cbn [to_boolean]. rewrite negb_involutive. by apply String.eqb_neq.
Qed.

(** X3: with a start date entered, a click on [generateBtn] makes exactly
    one request, whatever the server answers: a POST to [/generate_data]
    with the JSON content type whose body carries the values of the two
    fields.  The listener completes normally, shows no alert, and leaves
    the status region visible with a banner in it. *)
Theorem generate_click_request (r : reply) (w : world) (sd du gs : element) :
  document w !! "startDate" = Some sd ->
  document w !! "duration" = Some du ->
  document w !! "generationStatus" = Some gs ->
  value sd ≠ "" ->
  ∃ w' html,
    generate_click r w = (Normal tt, w')
    ∧ emitted w w'
      = [Fetch (Request "/generate_data" "POST"
                  [("Content-Type", "application/json")]
                  (JsonBody (VObj [("start_date", VStr (value sd));
                                   ("duration", VStr (value du))])))]
    ∧ visible "generationStatus" w'
    ∧ shows "generationStatus" (InnerHTML html) w'.
Proof.
  destruct w as [d h l]. cbn [document]. intros Hsd Hdu Hgs Hne.
  erewrite generate_click_run by eassumption.
  do 2 eexists. split; [reflexivity|]. split; [by rewrite emitted_app|].
  unfold visible, shows. cbn [document]. lookups.
  split; eexists; (split; [reflexivity|]); [apply token_remove_not_in|reflexivity].
Qed.

(** X4: every failing answer to the generation request is shown inline,
    with the text that the catch block reads from the exception: the
    message of the parse error when the body is no JSON, ToString of the
    [error] field when it is truthy and plain (a string, a number, [true],
    a list or an object), and the engine's [TypeError] message when the
    body is [null]. *)
Theorem generate_click_failure_text (w : world) (sd du gs : element) :
  document w !! "startDate" = Some sd ->
  document w !! "duration" = Some du ->
  document w !! "generationStatus" = Some gs ->
  value sd ≠ "" ->
  (∀ e, ∃ w', generate_click (NotJson e) w = (Normal tt, w')
              ∧ inline_error (message e) w w')
  ∧ (∀ fields, to_boolean (assoc "error" fields) = true ->
       plain (assoc "error" fields) = true ->
       ∃ w', generate_click (Json (VObj fields)) w = (Normal tt, w')
             ∧ inline_error (to_string (assoc "error" fields)) w w')
  ∧ (∃ w', generate_click (Json VNull) w = (Normal tt, w')
           ∧ inline_error (cannot_read VNull "error") w w').
Proof.
  destruct w as [d h l]. cbn [document]. intros Hsd Hdu Hgs Hne.
  assert (Hshow : ∀ r m, generation_markup r = danger_banner m ->
            ∃ w', generate_click r (World d h l) = (Normal tt, w')
                  ∧ inline_error m (World d h l) w').
  { intros r m Hm. erewrite generate_click_run by eassumption. rewrite Hm.
    eexists. split; [reflexivity|]. exists (danger_banner m).
    split; [unfold shows; cbn [document]; lookups; eexists; split; reflexivity|].
    split; [apply contains_danger_banner|]. split; [apply contains_danger_banner|].
    intros a. rewrite emitted_app. apply not_alert_fetch. }
  split; [|split].
  - intros e. by apply Hshow.
  - intros fields Herr _. apply Hshow. cbn [generation_markup get]. by rewrite Herr.
  - by apply Hshow.
Qed.

(** X5: the link of the success banner is built from ToString of the
    [filename] field; a body with no truthy [error] and no [filename]
    still gets the success banner, its link pointing at
    [/download_sample/undefined]. *)
Theorem generate_click_missing_filename
    (fields : list (string * jsval)) (w : world) (sd du gs : element) :
  document w !! "startDate" = Some sd ->
  document w !! "duration" = Some du ->
  document w !! "generationStatus" = Some gs ->
  value sd ≠ "" ->
  to_boolean (assoc "error" fields) = false ->
  assoc "filename" fields = VUndefined ->
  ∃ w' html,
    generate_click (Json (VObj fields)) w = (Normal tt, w')
    ∧ shows "generationStatus" (InnerHTML html) w'
    ∧ contains (attr "class" "alert alert-success") html
    ∧ contains ("<a " +:+ attr "href" "/download_sample/undefined") html
    ∧ ∀ a, Alert a ∉ emitted w w'.
Proof.
  destruct w as [d h l]. cbn [document]. intros Hsd Hdu Hgs Hne Herr Hfile.
  erewrite generate_click_run by eassumption.
  cbn [generation_markup get]. rewrite Herr, Hfile.
  do 2 eexists. split; [reflexivity|].
  split; [unfold shows; cbn [document]; lookups; eexists; split; reflexivity|].
  split; [|split].
  - exists (row 12 "<div "),
      (">" +:+ row 16 "Sample data generated successfully!" +:+
       row 16 ("<a " +:+ attr "href" "/download_sample/undefined" +:+ " " +:+
               attr "class" "btn btn-sm btn-primary ms-2" +:+ ">Download</a>") +:+
       row 12 "</div>" +:+ row 8 "").
    reflexivity.
  - exists (row 12 ("<div " +:+ attr "class" "alert alert-success" +:+ ">") +:+
            row 16 "Sample data generated successfully!" +:+ row 16 ""),
      (" " +:+ attr "class" "btn btn-sm btn-primary ms-2" +:+ ">Download</a>" +:+
       row 12 "</div>" +:+ row 8 "").
    reflexivity.
  - intros a. rewrite emitted_app. apply not_alert_fetch.
Qed.

Lemma generate_click_empty_run r d h l sd du :
  d !! "startDate" = Some sd ->
  d !! "duration" = Some du ->
  value sd = "" ->
  generate_click r (World d h l)
  = (Normal tt, World d h (l ++ [Alert "Please select a start date"])).
Proof.
  intros Hsd Hdu Hempty. unfold generate_click. do 4 js_step.
  by rewrite Hempty.
Qed.

(** X6: the click listener of [generateBtn] is idempotent on the
    document: a second click that gets the same answer leaves the document
    the first click left. *)
Theorem generate_click_idempotent (r : reply) (w : world) (sd du gs : element) :
  document w !! "startDate" = Some sd ->
  document w !! "duration" = Some du ->
  document w !! "generationStatus" = Some gs ->
  let once := (generate_click r w).2 in
  document (generate_click r once).2 = document once.
Proof.
  destruct w as [d h l]. cbn [document]. intros Hsd Hdu Hgs. cbv zeta.
  destruct (decide (value sd = "")) as [Hempty|Hne].
  - erewrite generate_click_empty_run by eassumption. cbn [snd].
    by erewrite generate_click_empty_run by eassumption.
  - erewrite generate_click_run by eassumption. cbn [snd document].
    erewrite generate_click_run by first [present | done]. cbn [snd document].
    apply map_eq. intros i.
    (alter_cases i; [..|done]); lookups; f_equal; element_eq.
Qed.

(** X7: the status region is looked up outside the [try] block: on a
    page without [generationStatus] the click listener throws the
    [TypeError] of line 11 before anything is requested or written. *)
Theorem generate_click_missing_status (r : reply) (w : world) (sd du : element) :
  document w !! "startDate" = Some sd ->
  document w !! "duration" = Some du ->
  document w !! "generationStatus" = None ->
  value sd ≠ "" ->
  generate_click r w = (Throw (TypeError (cannot_read VNull "classList")), w).
Proof.
  destruct w as [d h l]. cbn [document]. intros Hsd Hdu Hgs Hne.
  unfold generate_click. do 4 js_step. rewrite not_empty_truthy by done.
  rewrite step_getElementById_null by done.
  unfold mbind, js_bind, write_prop. reflexivity.
Qed.


(** A reply that does not pass lines 73-94: the [try] block throws some
    [e], which the catch block reports. *)
Lemma upload_submit_failure_run r d h l f :
  ui_contract d ->
  selected_file d = Some f ->
  ¬ unpacks r ->
  ∃ e, analyze f r (try_entry (World d h l))
       = (Throw e, World (document (try_entry (World d h l))) h
                     (l ++ [PreventDefault; Fetch (analyze_request f)]))
       ∧ upload_submit r (World d h l)
         = (Normal tt,
            World (alter (set_classList (token_add "d-none")) "loading"
                     (document (try_entry (World d h l)))) h
                  (l ++ [PreventDefault; Fetch (analyze_request f);
                         Alert ("Error: " +:+ message e)])).
Proof.
  intros Hui Hsel Hnot. rewrite (upload_submit_catch _ _ _ _ f) by done.
  unfold try_catch, try_entry. cbn [document location_href effects].
  set (d0 := alter _ "results" _).
  assert (Hui0 : ui_contract d0) by (by repeat apply ui_contract_alter).
  contract Hui0.
  edestruct (analyze_not_unpacked f r d0 h (l ++ [PreventDefault]))
    as [e He]; [eassumption|done|].
  exists e. rewrite He, <- !app_assoc. split; [done|].
  erewrite report_failure_run by eassumption. by rewrite <- !app_assoc.
Qed.

(** X8: on a page that holds the sixteen elements the submit listener
    always completes normally, and what it does is one of three things:
    with no file selected, [preventDefault] and the alert; with a file,
    [preventDefault] and one POST of that file to [/analyze], followed by
    at most one alert, which starts with "Error: ". *)
Theorem upload_submit_effects (r : reply) (w : world) :
  ui_contract (document w) ->
  ∃ w', upload_submit r w = (Normal tt, w')
        ∧ match selected_file (document w) with
          | None => emitted w w' = [PreventDefault; Alert "Please select a file"]
          | Some f =>
              let request := Fetch (Request "/analyze" "POST" [] (FormBody [("file", f)])) in
              emitted w w' = [PreventDefault; request]
              ∨ ∃ m, emitted w w' = [PreventDefault; request; Alert ("Error: " +:+ m)]
          end.
Proof.
  destruct w as [d h l]. cbn [document]. intros Hui.
  destruct (selected_file d) as [f|] eqn:Hsel.
  - destruct (unpacks_dec r) as [(fields & -> & Herr & Hst) | Hnot].
    + rewrite (upload_submit_unpacked _ _ _ _ f) by done.
      destruct (recommendations_outcome _ _) as [[[]|e] d2];
        (eexists; split; [reflexivity|]); cbv zeta.
      * left. by rewrite emitted_app.
      * right. exists (message e). by rewrite <- app_assoc, emitted_app.
    + destruct (upload_submit_failure_run r d h l f Hui Hsel Hnot) as (e & _ & ->).
      eexists. split; [reflexivity|]. cbv zeta. right. exists (message e).
      by rewrite emitted_app.
  - unfold selected_file in Hsel. pose proof Hui as Hui'. contract Hui'.
    match goal with H : d !! "fileInput" = Some ?x |- _ =>
      rename H into Hfi; rename x into fi end.
    rewrite Hfi in Hsel. cbn in Hsel.
    destruct (files fi) as [|f fs] eqn:Hfiles; [|discriminate].
    unfold upload_submit, preventDefault. do 3 js_step. rewrite Hfiles.
    unfold alert, log. cbn [document location_href effects].
    eexists. split; [reflexivity|]. by rewrite <- app_assoc, emitted_app.
Qed.


(** X10: a run that fails before line 78 writes to the loading indicator
    and the results panel only: the statistic fields, the two images, the
    download listener and the recommendations keep what an earlier run
    left in them. *)
Theorem upload_submit_failure_frame (r : reply) (w : world) (f : file) (id : string) :
  ui_contract (document w) ->
  selected_file (document w) = Some f ->
  ¬ unpacks r ->
  id ≠ "loading" -> id ≠ "results" ->
  document (upload_submit r w).2 !! id = document w !! id.
Proof.
  destruct w as [d h l]. cbn [document]. intros Hui Hsel Hnot Hlo Hre.
  destruct (upload_submit_failure_run r d h l f Hui Hsel Hnot) as (e & _ & ->).
  unfold try_entry. cbn [snd document]. by rewrite !lookup_alter_ne by done.
Qed.


Lemma upload_submit_throw_run r d h l f e :
  ui_contract d ->
  selected_file d = Some f ->
  analyze f r (try_entry (World d h l))
  = (Throw e, World (document (try_entry (World d h l))) h
                (l ++ [PreventDefault; Fetch (analyze_request f)])) ->
  emitted (World d h l) (upload_submit r (World d h l)).2
  = [PreventDefault; Fetch (analyze_request f); Alert ("Error: " +:+ message e)].
Proof.
  intros Hui Hsel Hthrow. rewrite (upload_submit_catch _ _ _ _ f) by done.
  unfold try_catch. rewrite Hthrow. unfold try_entry. cbn [document].
  contract Hui. erewrite report_failure_run by present. cbn [snd].
  by rewrite <- app_assoc, emitted_app.
Qed.

(** X11: the text of the alert of the submit listener, by the kind of
    failure: "Error: " followed by the message of the exception when the
    request or the parse fails, by ToString of the [error] field when it
    is truthy and plain, and by the engine's [TypeError] message when the
    body is [null]. *)
Theorem upload_submit_alert_text (w : world) (f : file) :
  ui_contract (document w) ->
  selected_file (document w) = Some f ->
  let alerts r m :=
    emitted w (upload_submit r w).2
    = [PreventDefault; Fetch (analyze_request f); Alert ("Error: " +:+ m)] in
  (∀ e, alerts (Rejected e) (message e))
  ∧ (∀ e, alerts (NotJson e) (message e))
  ∧ (∀ fields, to_boolean (assoc "error" fields) = true ->
       plain (assoc "error" fields) = true ->
       alerts (Json (VObj fields)) (to_string (assoc "error" fields)))
  ∧ alerts (Json VNull) (cannot_read VNull "error").
Proof.
  destruct w as [d h l]. cbn [document]. intros Hui Hsel. cbv zeta.
  split; [|split; [|split]].
  - intros e. rewrite (upload_submit_throw_run _ _ _ _ f e); [done..|].
    unfold try_entry. cbn [document location_href effects].
    by rewrite analyze_rejected, <- app_assoc.
  - intros e. rewrite (upload_submit_throw_run _ _ _ _ f e); [done..|].
    unfold try_entry. cbn [document location_href effects].
    by rewrite analyze_not_json, <- app_assoc.
  - intros fields Herr _.
    rewrite (upload_submit_throw_run _ _ _ _ f (Error (to_string (assoc "error" fields))));
      [done..|].
    unfold try_entry. cbn [document location_href effects].
    rewrite analyze_json. cbn [get]. rewrite Herr. by rewrite <- app_assoc.
  - rewrite (upload_submit_throw_run _ _ _ _ f (TypeError (cannot_read VNull "error")));
      [done..|].
    unfold try_entry. cbn [document location_href effects].
    rewrite analyze_json. cbn [get]. by rewrite <- app_assoc.
Qed.

Lemma render_recommendation_normal rec card :
  render_recommendation rec = Normal card -> recommendation_shape rec.
Proof.
  intros Hcard. unfold render_recommendation in Hcard.
  destruct rec as [| |b|n|s|items|fields]; try discriminate.
  exists fields. cbn [get mbind completion_bind] in Hcard.
  destruct (assoc "recommendations" fields) as [| |b|n|s|subs|fs] eqn:Hsubs;
    try discriminate.
  by exists subs.
Qed.

(** X12: the template of lines 98-110 can be evaluated exactly on the
    recommendations of the data model's shape: for a plain value,
    rendering returns a card if and only if the value is an object whose
    [recommendations] field is a list; on every other plain value
    ([null], a string, an object without the list) it throws. *)
Theorem render_recommendation_iff_shape (rec : jsval) :
  plain rec = true ->
  (∃ card, render_recommendation rec = Normal card) ↔ recommendation_shape rec.
Proof.
  intros _. split.
  - intros [card Hcard]. by eapply render_recommendation_normal.
  - intros Hshape. destruct (render_recommendation_card rec Hshape) as (card & ? & _).
    by exists card.
Qed.

Lemma mapM_render_throws recs :
  Exists (λ rec, ¬ recommendation_shape rec) recs ->
  ∃ e, mapM render_recommendation recs = Throw e.
Proof.
  induction recs as [|rec recs IH]; intros Hex; [by inversion Hex|].
  cbn [mapM]. destruct (render_recommendation rec) as [card|e] eqn:Hrec;
    [|by exists e].
  cbn [mbind completion_bind].
  assert (Hshape : recommendation_shape rec)
    by (by eapply render_recommendation_normal).
  apply Exists_cons in Hex as [Hbad|Hex]; [done|].
  destruct (IH Hex) as [e ->]. by exists e.
Qed.

(** X13: the recommendations are rendered all or nothing.  When one
    recommendation of the list of a plain body is not of the data model's
    shape, the
    [map] throws before line 98 assigns: the listener alerts, the list and
    the card are left exactly as they were, and the results panel, already
    revealed, shows the new statistics. *)
Theorem upload_submit_malformed_recommendation
    (fields : list (string * jsval)) (recs : list jsval) (w : world) (f : file) :
  ui_contract (document w) ->
  selected_file (document w) = Some f ->
  plain (VObj fields) = true ->
  to_boolean (assoc "error" fields) = false ->
  nullish (assoc "statistics" fields) = false ->
  assoc "recommendations" fields = VArr recs ->
  Exists (λ rec, ¬ recommendation_shape rec) recs ->
  ∃ w' m,
    upload_submit (Json (VObj fields)) w = (Normal tt, w')
    ∧ emitted w w'
      = [PreventDefault; Fetch (analyze_request f); Alert ("Error: " +:+ m)]
    ∧ document w' !! "recommendationsList" = document w !! "recommendationsList"
    ∧ document w' !! "recommendationsCard" = document w !! "recommendationsCard"
    ∧ visible "results" w'.
Proof.
  destruct w as [d h l]. cbn [document]. intros Hui Hsel _ Herr Hst Hrecs Hbad.
  destruct (mapM_render_throws recs Hbad) as [e He].
  rewrite (upload_submit_unpacked _ _ _ _ f) by done.
  assert (Hout : ∀ d1, recommendations_outcome (assoc "recommendations" fields) d1
                       = (Throw e, d1)).
  { intros d1. rewrite Hrecs. unfold recommendations_outcome, has_recommendations.
    cbn [to_boolean get mbind completion_bind gt_zero array_map]. rewrite He.
    destruct recs; [by inversion Hbad|]. reflexivity. }
  rewrite Hout. exists
    (World (alter (set_classList (token_add "d-none")) "loading"
              (unpacked (VObj fields) (document (try_entry (World d h l))))) h
       ((l ++ [PreventDefault; Fetch (analyze_request f)])
        ++ [Alert ("Error: " +:+ message e)])), (message e).
  split; [reflexivity|]. split; [by rewrite <- app_assoc, emitted_app|].
  unfold visible, unpacked, try_entry. cbn [document]. contract Hui. lookups.
  split; [done|]. split; [done|].
  eexists. split; [reflexivity|apply token_remove_not_in].
Qed.

(** X14: lines 78-90 write the answer as it is.  For every object body
    that passes line 75 and whose statistics are an object, the
    statistics and the timestamp being plain, the two count
    fields show ToString of their statistic, or nothing when it is absent
    or [null]; the percentage shows ToString of its statistic followed by
    "%" (so "undefined%" when it is absent); the images and the download
    listener are addressed by ToString of the timestamp. *)
Theorem upload_submit_verbatim
    (fields stats : list (string * jsval)) (w : world) (f : file) :
  ui_contract (document w) ->
  selected_file (document w) = Some f ->
  to_boolean (assoc "error" fields) = false ->
  assoc "statistics" fields = VObj stats ->
  plain (VObj stats) = true ->
  plain (assoc "timestamp" fields) = true ->
  let timestamp := to_string (assoc "timestamp" fields) in
  let w' := (upload_submit (Json (VObj fields)) w).2 in
  shows "totalRecords" (TextContent (text_of (assoc "total_records" stats))) w'
  ∧ shows "anomalyCount" (TextContent (text_of (assoc "anomaly_count" stats))) w'
  ∧ shows "anomalyPercentage"
      (TextContent (to_string (assoc "anomaly_percentage" stats) +:+ "%")) w'
  ∧ has_src "scatterPlot" ("/visualization/" +:+ timestamp +:+ "/scatter") w'
  ∧ has_src "distributionPlot" ("/visualization/" +:+ timestamp +:+ "/distribution") w'
  ∧ click_navigates "downloadBtn" ("/download/" +:+ timestamp) w'.
Proof.
  intros Hui Hsel Herr Hstats _ _. cbv zeta.
  destruct (upload_submit_unpacked_frame fields w f) as (w' & Hrun & Hframe);
    [done|done|done|by rewrite Hstats|].
  rewrite Hrun. cbn [snd].
  unfold shows, has_src, click_navigates.
  rewrite !Hframe by done.
  unfold unpacked, try_entry. cbn [document get]. rewrite Hstats. cbn [get].
  contract Hui. lookups.
  repeat split; try (eexists; split; [reflexivity|reflexivity]).
  do 2 eexists. split; [reflexivity|]. split; [reflexivity|].
  intros w''. unfold run_listener. cbn [get]. by js_run.
Qed.

Lemma within_ui_contract ids w w' :
  within ids w w' -> ui_contract (document w) -> ui_contract (document w').
Proof.
  intros (_ & _ & Hi & _). unfold ui_contract. intros Hui.
  eapply Forall_impl; [exact Hui|]. intros id [e He]. specialize (Hi id).
  rewrite He in Hi. inversion Hi. by eexists.
Qed.

Lemma within_selected_file ids w w' :
  within ids w w' -> selected_file (document w') = selected_file (document w).
Proof.
  intros (_ & _ & Hi & _). unfold selected_file. specialize (Hi "fileInput").
  destruct Hi as [e e' [_ Hfiles]|]; [|done]. cbn. by rewrite Hfiles.
Qed.

(** X15: the download listener is replaced on success only.  After a run
    whose plain answer was rendered, a later run that fails before line
    78 hides the results panel again but leaves the listener in place: a
    click still navigates to the download of the earlier timestamp. *)
Theorem upload_submit_failure_keeps_download
    (fields : list (string * jsval)) (r : reply) (w : world) (f : file) :
  ui_contract (document w) ->
  selected_file (document w) = Some f ->
  plain (VObj fields) = true ->
  to_boolean (assoc "error" fields) = false ->
  nullish (assoc "statistics" fields) = false ->
  ¬ unpacks r ->
  let first := (upload_submit (Json (VObj fields)) w).2 in
  let second := (upload_submit r first).2 in
  click_navigates "downloadBtn"
    ("/download/" +:+ to_string (assoc "timestamp" fields)) second
  ∧ hidden "results" second.
Proof.
  intros Hui Hsel _ Herr Hst Hnot. cbv zeta.
  pose proof (keeps_upload_submit (Json (VObj fields)) w) as Hwithin.
  destruct (upload_submit_unpacked_frame fields w f) as (w1 & Hrun & Hframe);
    [done..|].
  rewrite Hrun in *. cbn [snd] in *.
  assert (Hui1 : ui_contract (document w1)) by (by eapply within_ui_contract).
  assert (Hsel1 : selected_file (document w1) = Some f)
    by (by erewrite within_selected_file).
  assert (Hbtn : document w1 !! "downloadBtn"
                 = unpacked (VObj fields) (document (try_entry w)) !! "downloadBtn")
    by (by apply Hframe).
  destruct w1 as [d1 h1 l1]. cbn [document] in *.
  destruct (upload_submit_failure_run r d1 h1 l1 f Hui1 Hsel1 Hnot) as (e & _ & ->).
  unfold click_navigates, hidden, try_entry. cbn [snd document].
  unfold unpacked, try_entry in Hbtn. cbn [document get] in Hbtn.
  contract Hui. revert Hbtn. lookups. intros Hbtn. split.
  - rewrite Hbtn.
    do 2 eexists. split; [reflexivity|]. split; [reflexivity|].
    intros w''. unfold run_listener. cbn [get]. by js_run.
  - clear Hbtn. contract Hui1. lookups.
    eexists. split; [reflexivity|apply token_add_in].
Qed.

(** X16: the test of line 96 treats every value without a positive
    length as no recommendations: in a plain body whose [recommendations]
    field is [null], a number, a boolean or the empty string the card is
    hidden, the list is not written and no error
    is reported, as for the empty list. *)
Theorem upload_submit_recommendations_not_a_list
    (fields : list (string * jsval)) (w : world) (f : file) :
  ui_contract (document w) ->
  selected_file (document w) = Some f ->
  plain (VObj fields) = true ->
  to_boolean (assoc "error" fields) = false ->
  nullish (assoc "statistics" fields) = false ->
  assoc "recommendations" fields = VNull
  ∨ (∃ n, assoc "recommendations" fields = VNum n)
  ∨ (∃ b, assoc "recommendations" fields = VBool b)
  ∨ assoc "recommendations" fields = VStr "" ->
  ∃ w', upload_submit (Json (VObj fields)) w = (Normal tt, w')
        ∧ hidden "recommendationsCard" w'
        ∧ document w' !! "recommendationsList" = document w !! "recommendationsList"
        ∧ emitted w w' = [PreventDefault; Fetch (analyze_request f)].
Proof.
  destruct w as [d h l]. cbn [document]. intros Hui Hsel _ Herr Hst Hrecs.
  rewrite (upload_submit_unpacked _ _ _ _ f) by done.
  assert (Hout : ∀ d1, recommendations_outcome (assoc "recommendations" fields) d1
                       = (Normal tt,
                          alter (set_classList (token_add "d-none"))
                            "recommendationsCard" d1)).
  { intros d1. unfold recommendations_outcome, has_recommendations.
    destruct Hrecs as [-> | [[n ->] | [[b ->] | ->]]]; cbn; try done.
    - by destruct (n =? 0)%Z.
    - by destruct b. }
  rewrite Hout. eexists. split; [reflexivity|].
  unfold hidden, unpacked, try_entry. cbn [document]. contract Hui. lookups.
  split; [|split; [done|by rewrite emitted_app]].
  eexists. split; [reflexivity|]. apply token_add_in.
Qed.

Lemma lookup_without id id' w :
  id ≠ id' -> document (without id w) !! id' = document w !! id'.
Proof. intros Hne. unfold without. cbn. by apply lookup_delete_ne. Qed.

(** X17: the loading indicator is looked up outside the [try] block: on
    a page without [loading], a submit with a file selected prevents the
    default submission and then throws the [TypeError] of line 59; nothing
    is requested, alerted or written. *)
Theorem upload_submit_missing_loading (r : reply) (w : world) (f : file) :
  ui_contract (document w) ->
  selected_file (document w) = Some f ->
  upload_submit r (without "loading" w)
  = (Throw (TypeError (cannot_read VNull "classList")),
     World (document (without "loading" w)) (location_href w)
       (effects w ++ [PreventDefault])).
Proof.
  destruct w as [d h l]. intros Hui Hsel. unfold without.
  cbn [document location_href effects] in *.
  unfold selected_file in Hsel.
  destruct (d !! "fileInput") as [fi|] eqn:Hfi; [|done]. cbn in Hsel.
  destruct (files fi) as [|f' fs] eqn:Hfiles; [done|].
  assert (Hfi' : delete "loading" d !! "fileInput" = Some fi)
    by (by rewrite lookup_delete_ne).
  unfold upload_submit, preventDefault. do 3 js_step. rewrite Hfiles.
  rewrite step_getElementById_null by apply lookup_delete_eq.
  reflexivity.
Qed.

(** X18: inside the [try] block a missing element is an error like any
    other.  On a page without [totalRecords], a body that passes line 75
    with readable statistics makes line 78 throw; the catch block alerts,
    the loading indicator and the results panel end hidden, and nothing of
    the answer is written. *)
Theorem upload_submit_missing_field
    (fields : list (string * jsval)) (w : world) (f : file) :
  ui_contract (document w) ->
  selected_file (document w) = Some f ->
  to_boolean (assoc "error" fields) = false ->
  nullish (assoc "statistics" fields) = false ->
  ∃ w' m,
    upload_submit (Json (VObj fields)) (without "totalRecords" w) = (Normal tt, w')
    ∧ emitted (without "totalRecords" w) w'
      = [PreventDefault; Fetch (analyze_request f); Alert ("Error: " +:+ m)]
    ∧ hidden "loading" w'
    ∧ hidden "results" w'
    ∧ ∀ id, id ≠ "loading" -> id ≠ "results" ->
            document w' !! id = document (without "totalRecords" w) !! id.
Proof.
  destruct w as [d h l]. intros Hui Hsel Herr Hst. unfold without.
  cbn [document location_href effects] in *.
  unfold selected_file in Hsel.
  destruct (d !! "fileInput") as [fi|] eqn:Hfi; [|done]. cbn in Hsel.
  destruct (files fi) as [|f' fs] eqn:Hfiles; [done|]. injection Hsel as ->.
  contract Hui.
  set (d' := delete "totalRecords" d).
  assert (Hfi' : d' !! "fileInput" = Some fi) by (by apply lookup_delete_Some).
  match goal with H : d !! "loading" = Some ?x |- _ =>
    assert (Hlo : d' !! "loading" = Some x) by (by apply lookup_delete_Some) end.
  match goal with H : d !! "results" = Some ?x |- _ =>
    assert (Hre : d' !! "results" = Some x) by (by apply lookup_delete_Some) end.
  assert (Htr : d' !! "totalRecords" = None) by apply lookup_delete_eq.
  clearbody d'.
  erewrite (upload_submit_try _ _ _ _ _ _ _ _ _ Hfi' Hfiles) by eassumption.
  unfold try_catch, try_entry. cbn [document location_href effects].
  rewrite analyze_json. cbn [get]. rewrite Herr. cbn zeta.
  unfold render_analysis.
  rewrite step_getElementById_null by (by rewrite !lookup_alter_ne by done).
  destruct (get_not_nullish _ "total_records" Hst) as [a1 Ha1].
  cbn [get]. rewrite !step_eval, Ha1.
  unfold mbind at 1, js_bind at 1, write_prop at 1. cbn [mbind option_bind].
  erewrite report_failure_run by (lookups; reflexivity).
  do 2 eexists. split; [reflexivity|].
  split; [by rewrite <- !app_assoc, emitted_app|].
  unfold hidden. cbn [document]. lookups.
  split; [eexists; split; [reflexivity|apply token_add_in]|].
  split; [eexists; split; [reflexivity|apply token_add_in]|].
  intros id Hnlo Hnre. by rewrite !lookup_alter_ne by done.
Qed.

End Extras.

(** ** The theorems at concrete pages and replies *)

Lemma sample_page_contract : ui_contract sample_page.
Proof.
  unfold ui_contract. apply (bool_decide_unpack _). by vm_compute.
Qed.

Lemma sample_world_contract : ui_contract (document sample_world).
Proof.
  unfold sample_world, with_file, with_value. cbn [document].
  repeat apply ui_contract_alter. apply sample_page_contract.
Qed.

Lemma generate_click_empty_start_date_witness :
  ∃ w', generate_click (Json VNull) idle_world = (Normal tt, w')
        ∧ emitted idle_world w' = [Alert "Please select a start date"]
        ∧ (∀ req, Fetch req ∉ emitted idle_world w')
        ∧ document w' = document idle_world.
Proof.
  apply (generate_click_empty_start_date (Json VNull) idle_world blank blank);
    reflexivity.
Defined.

Lemma upload_submit_no_file_witness :
  ∃ w', upload_submit (Json VNull) idle_world = (Normal tt, w')
        ∧ emitted idle_world w' = [PreventDefault; Alert "Please select a file"]
        ∧ (∀ req, Fetch req ∉ emitted idle_world w')
        ∧ document w' = document idle_world.
Proof.
  apply (upload_submit_no_file (Json VNull) idle_world blank); reflexivity.
Defined.

Lemma upload_submit_renders_statistics_witness :
  ∃ w', upload_submit (Json (VObj (analysis_fields [spike]))) sample_world
        = (Normal tt, w')
        ∧ shows "totalRecords" (TextContent "100") w'
        ∧ shows "anomalyCount" (TextContent "5") w'
        ∧ shows "anomalyPercentage" (TextContent "5%") w'
        ∧ has_src "scatterPlot" "/visualization/t1/scatter" w'
        ∧ has_src "distributionPlot" "/visualization/t1/distribution" w'
        ∧ click_navigates "downloadBtn" "/download/t1" w'.
Proof.
  apply (upload_submit_renders_statistics (analysis_fields [spike])
           [("total_records", VNum 100); ("anomaly_count", VNum 5);
            ("anomaly_percentage", VNum 5)] sample_world sample_file);
    first [apply sample_world_contract | reflexivity].
Defined.

Lemma upload_submit_no_recommendations_witness :
  ∃ w', upload_submit (Json (VObj (analysis_fields []))) sample_world = (Normal tt, w')
        ∧ hidden "recommendationsCard" w'
        ∧ document w' !! "recommendationsList"
          = document sample_world !! "recommendationsList"
        ∧ emitted sample_world w' = [PreventDefault; Fetch (analyze_request sample_file)].
Proof.
  apply (upload_submit_no_recommendations (analysis_fields []) sample_world sample_file);
    first [apply sample_world_contract | reflexivity | by left].
Defined.

Lemma spike_shape : Forall recommendation_shape [spike].
Proof.
  constructor; [|constructor].
  exists [("type", VStr "Spike"); ("severity", VStr "HIGH"); ("description", VStr "d");
          ("recommendations", VArr [VStr "fix it"])], [VStr "fix it"].
  split; reflexivity.
Qed.

Lemma upload_submit_renders_recommendations_witness :
  ∃ w' cards,
    upload_submit (Json (VObj (analysis_fields [spike]))) sample_world = (Normal tt, w')
    ∧ visible "recommendationsCard" w'
    ∧ shows "recommendationsList" (InnerHTML (concat_strings cards)) w'
    ∧ Forall2 card_for [spike] cards.
Proof.
  apply (upload_submit_renders_recommendations (analysis_fields [spike]) [spike]
           sample_world sample_file);
    first [apply sample_world_contract | apply spike_shape | reflexivity | discriminate].
Defined.



Lemma generate_click_success_witness :
  ∃ w' html,
    generate_click (Json (VObj [("filename", VStr "sample.csv")])) sample_world
    = (Normal tt, w')
    ∧ visible "generationStatus" w'
    ∧ shows "generationStatus" (InnerHTML html) w'
    ∧ contains (attr "class" "alert alert-success") html
    ∧ contains ("<a " +:+ attr "href" "/download_sample/sample.csv") html.
Proof.
  apply (generate_click_success [("filename", VStr "sample.csv")] sample_world
           (Element [] "2024-01-01" [] (TextContent "") "" None)
           (Element [] "7" [] (TextContent "") "" None)
           (set_classList (λ _, ["d-none"]) blank));
    first [reflexivity | discriminate].
Defined.

Lemma generate_click_failure_witness :
  (∀ fields, assoc "error" fields = VStr "bad range" ->
     ∃ w', generate_click (Json (VObj fields)) sample_world = (Normal tt, w')
           ∧ inline_error "bad range" sample_world w')
  ∧ (∀ e, ∃ w', generate_click (Rejected e) sample_world = (Normal tt, w')
                ∧ inline_error (message e) sample_world w').
Proof.
  apply (generate_click_failure sample_world
           (Element [] "2024-01-01" [] (TextContent "") "" None)
           (Element [] "7" [] (TextContent "") "" None)
           (set_classList (λ _, ["d-none"]) blank));
    first [reflexivity | discriminate].
Defined.


Lemma upload_submit_idempotent_witness :
  let r := Json (VObj (analysis_fields [spike])) in
  document (upload_submit r (upload_submit r sample_world).2).2
  = document (upload_submit r sample_world).2.
Proof.
  apply (upload_submit_idempotent (Json (VObj (analysis_fields [spike]))) sample_world).
  apply sample_world_contract.
Defined.

(** ** The further properties at concrete pages and replies *)

Lemma rejected_not_unpacks e : ¬ unpacks (Rejected e).
Proof. by intros (fields & ? & _). Qed.

Lemma truncated_malformed : Exists (λ rec, ¬ recommendation_shape rec) [truncated].
Proof.
  apply Exists_cons_hd. intros (fields & subs & [= <-] & Hsubs). discriminate.
Qed.

Lemma generate_click_request_witness :
  ∃ w' html,
    generate_click (Rejected failed_to_fetch) sample_world = (Normal tt, w')
    ∧ emitted sample_world w'
      = [Fetch (Request "/generate_data" "POST"
                  [("Content-Type", "application/json")]
                  (JsonBody (VObj [("start_date", VStr "2024-01-01");
                                   ("duration", VStr "7")])))]
    ∧ visible "generationStatus" w'
    ∧ shows "generationStatus" (InnerHTML html) w'.
Proof.
  apply (generate_click_request (Rejected failed_to_fetch) sample_world
           entered_start entered_duration status_region);
    first [reflexivity | discriminate].
Defined.

Lemma generate_click_failure_text_witness :
  (∀ e, ∃ w', generate_click (NotJson e) sample_world = (Normal tt, w')
              ∧ inline_error (message e) sample_world w')
  ∧ (∀ fields, to_boolean (assoc "error" fields) = true ->
       plain (assoc "error" fields) = true ->
       ∃ w', generate_click (Json (VObj fields)) sample_world = (Normal tt, w')
             ∧ inline_error (to_string (assoc "error" fields)) sample_world w')
  ∧ (∃ w', generate_click (Json VNull) sample_world = (Normal tt, w')
           ∧ inline_error (cannot_read VNull "error") sample_world w').
Proof.
  apply (generate_click_failure_text sample_world
           entered_start entered_duration status_region);
    first [reflexivity | discriminate].
Defined.

Lemma generate_click_missing_filename_witness :
  ∃ w' html,
    generate_click (Json (VObj [])) sample_world = (Normal tt, w')
    ∧ shows "generationStatus" (InnerHTML html) w'
    ∧ contains (attr "class" "alert alert-success") html
    ∧ contains ("<a " +:+ attr "href" "/download_sample/undefined") html
    ∧ ∀ a, Alert a ∉ emitted sample_world w'.
Proof.
  apply (generate_click_missing_filename [] sample_world
           entered_start entered_duration status_region);
    first [reflexivity | discriminate].
Defined.

Lemma generate_click_idempotent_witness :
  let r := Json (VObj [("filename", VStr "sample.csv")]) in
  document (generate_click r (generate_click r sample_world).2).2
  = document (generate_click r sample_world).2.
Proof.
  apply (generate_click_idempotent (Json (VObj [("filename", VStr "sample.csv")]))
           sample_world entered_start entered_duration status_region);
    reflexivity.
Defined.

Lemma generate_click_missing_status_witness :
  generate_click (Json VNull) (without "generationStatus" sample_world)
  = (Throw (TypeError (cannot_read VNull "classList")),
     without "generationStatus" sample_world).
Proof.
  apply (generate_click_missing_status (Json VNull)
           (without "generationStatus" sample_world) entered_start entered_duration);
    first [reflexivity | discriminate].
Defined.

Lemma upload_submit_effects_witness :
  ∃ w', upload_submit (Json (VObj (analysis_fields [spike]))) sample_world
        = (Normal tt, w')
        ∧ match selected_file (document sample_world) with
          | None => emitted sample_world w'
                    = [PreventDefault; Alert "Please select a file"]
          | Some f =>
              let request := Fetch (Request "/analyze" "POST" [] (FormBody [("file", f)])) in
              emitted sample_world w' = [PreventDefault; request]
              ∨ ∃ m, emitted sample_world w'
                     = [PreventDefault; request; Alert ("Error: " +:+ m)]
          end.
Proof.
  apply (upload_submit_effects (Json (VObj (analysis_fields [spike]))) sample_world).
  apply sample_world_contract.
Defined.


Lemma upload_submit_failure_frame_witness :
  document (upload_submit (Rejected failed_to_fetch) sample_world).2 !! "totalRecords"
  = document sample_world !! "totalRecords".
Proof.
  apply (upload_submit_failure_frame (Rejected failed_to_fetch) sample_world
           sample_file "totalRecords");
    first [apply sample_world_contract | apply rejected_not_unpacks
          | reflexivity | discriminate].
Defined.

Lemma upload_submit_alert_text_witness :
  let alerts r m :=
    emitted sample_world (upload_submit r sample_world).2
    = [PreventDefault; Fetch (analyze_request sample_file); Alert ("Error: " +:+ m)] in
  (∀ e, alerts (Rejected e) (message e))
  ∧ (∀ e, alerts (NotJson e) (message e))
  ∧ (∀ fields, to_boolean (assoc "error" fields) = true ->
       plain (assoc "error" fields) = true ->
       alerts (Json (VObj fields)) (to_string (assoc "error" fields)))
  ∧ alerts (Json VNull) (cannot_read VNull "error").
Proof.
  apply (upload_submit_alert_text sample_world sample_file);
    first [apply sample_world_contract | reflexivity].
Defined.

Lemma render_recommendation_iff_shape_witness :
  (∃ card, render_recommendation spike = Normal card) ↔ recommendation_shape spike.
Proof. apply (render_recommendation_iff_shape spike). reflexivity. Defined.

Lemma upload_submit_malformed_recommendation_witness :
  ∃ w' m,
    upload_submit (Json (VObj (analysis_fields [truncated]))) sample_world
    = (Normal tt, w')
    ∧ emitted sample_world w'
      = [PreventDefault; Fetch (analyze_request sample_file); Alert ("Error: " +:+ m)]
    ∧ document w' !! "recommendationsList"
      = document sample_world !! "recommendationsList"
    ∧ document w' !! "recommendationsCard"
      = document sample_world !! "recommendationsCard"
    ∧ visible "results" w'.
Proof.
  apply (upload_submit_malformed_recommendation (analysis_fields [truncated])
           [truncated] sample_world sample_file);
    first [apply sample_world_contract | apply truncated_malformed | reflexivity].
Defined.

Lemma upload_submit_verbatim_witness :
  let w' := (upload_submit (Json (VObj (analysis_fields []))) sample_world).2 in
  shows "totalRecords" (TextContent "100") w'
  ∧ shows "anomalyCount" (TextContent "5") w'
  ∧ shows "anomalyPercentage" (TextContent "5%") w'
  ∧ has_src "scatterPlot" "/visualization/t1/scatter" w'
  ∧ has_src "distributionPlot" "/visualization/t1/distribution" w'
  ∧ click_navigates "downloadBtn" "/download/t1" w'.
Proof.
  apply (upload_submit_verbatim (analysis_fields [])
           [("total_records", VNum 100); ("anomaly_count", VNum 5);
            ("anomaly_percentage", VNum 5)] sample_world sample_file);
    first [apply sample_world_contract | reflexivity].
Defined.

Lemma upload_submit_failure_keeps_download_witness :
  let first := (upload_submit (Json (VObj (analysis_fields []))) sample_world).2 in
  let second := (upload_submit (Rejected failed_to_fetch) first).2 in
  click_navigates "downloadBtn" "/download/t1" second ∧ hidden "results" second.
Proof.
  apply (upload_submit_failure_keeps_download (analysis_fields [])
           (Rejected failed_to_fetch) sample_world sample_file);
    first [apply sample_world_contract | apply rejected_not_unpacks | reflexivity].
Defined.

Lemma upload_submit_recommendations_not_a_list_witness :
  ∃ w', upload_submit (Json (VObj counted_fields)) sample_world = (Normal tt, w')
        ∧ hidden "recommendationsCard" w'
        ∧ document w' !! "recommendationsList"
          = document sample_world !! "recommendationsList"
        ∧ emitted sample_world w' = [PreventDefault; Fetch (analyze_request sample_file)].
Proof.
  apply (upload_submit_recommendations_not_a_list counted_fields sample_world sample_file);
    first [apply sample_world_contract | reflexivity
          | right; left; by exists 3%Z].
Defined.

Lemma upload_submit_missing_loading_witness :
  upload_submit (Json VNull) (without "loading" sample_world)
  = (Throw (TypeError (cannot_read VNull "classList")),
     World (document (without "loading" sample_world)) "/" [PreventDefault]).
Proof.
  apply (upload_submit_missing_loading (Json VNull) sample_world sample_file);
    first [apply sample_world_contract | reflexivity].
Defined.

Lemma upload_submit_missing_field_witness :
  ∃ w' m,
    upload_submit (Json (VObj (analysis_fields []))) (without "totalRecords" sample_world)
    = (Normal tt, w')
    ∧ emitted (without "totalRecords" sample_world) w'
      = [PreventDefault; Fetch (analyze_request sample_file); Alert ("Error: " +:+ m)]
    ∧ hidden "loading" w'
    ∧ hidden "results" w'
    ∧ ∀ id, id ≠ "loading" -> id ≠ "results" ->
            document w' !! id = document (without "totalRecords" sample_world) !! id.
Proof.
  apply (upload_submit_missing_field (analysis_fields []) sample_world sample_file);
    first [apply sample_world_contract | reflexivity].
Defined.
